(** * Structure-based sequence alignment pipeline: a shallow embedding

    The repository is three Python scripts run one after the other:
    - [1_ce_align.py]: loads [pdbs/ref.pdb] and every other [pdbs/*.pdb]
      into a PyMOL session, runs [cmd.cealign] against the reference and
      saves [alignment.pse];
    - [2_seq_alignment.py]: reloads the session and, per target object,
      selects CA atoms close to the other structure, sorts them, maps
      residue names through a fixed table and writes
      [{target}_seq_align.fasta];
    - [3_msa_generator.py]: parses every [*_seq_align.fasta] and writes the
      merged [aligned.msa.fasta].

    Every script is modelled as a computation in a small writer/exception
    monad: it produces the trace of its observable effects (log records,
    toolkit calls, files written) and ends either normally or with an
    uncaught Python exception.  What the outside world answers (file system
    listings, whether a toolkit call raises, atom coordinates) is an
    explicit argument. *)

From Stdlib Require Import String Ascii List ZArith Bool Lia Sorted Permutation.
Import ListNotations.
Open Scope string_scope.

(** ** Effects shared by the three scripts *)

Inductive level := INFO | WARNING | ERROR.

(** Exceptions that can escape a script. *)
Inductive exn :=
| TypeError          (** [<] between an [int] and a [str] *)
| CmdException       (** a PyMOL command raised *)
| OSError.           (** opening / reading / writing a file failed *)

Inductive event :=
| EvLog (lvl : level) (tag : string)   (** [logging.info/warning/error] *)
| EvOpenToolkit                        (** entering [with pymol2.PyMOL()] *)
| EvCloseToolkit                       (** leaving that [with] block *)
| EvLoad (path obj : string)           (** the call [cmd.load(path, obj)]; PyMOL
                                           may store the object under a
                                           cleaned-up form of [obj] *)
| EvCeAlign (mobile target : string)   (** [cmd.cealign(a, b)] is called *)
| EvSave (file : string)               (** [cmd.save(file)] *)
| EvWrite (file content : string).     (** a file written with mode "w" *)

Inductive res (A : Type) := Ok (a : A) | Exc (e : exn).
Arguments Ok {A} a.
Arguments Exc {A} e.

(** A computation: its result and the trace of events it emitted. *)
Definition M (A : Type) : Type := (res A * list event)%type.

Definition ret {A} (a : A) : M A := (Ok a, []).
Definition raise {A} (e : exn) : M A := (Exc e, []).
Definition emit (e : event) : M unit := (Ok tt, [e]).

Definition bind {A B} (m : M A) (k : A -> M B) : M B :=
  match m with
  | (Ok a, t1) => let (r, t2) := k a in (r, (t1 ++ t2)%list)
  | (Exc e, t1) => (Exc e, t1)
  end.

Notation "x <- m ;; k" := (bind m (fun x => k))
  (at level 61, m at next level, right associativity).
Notation "m ;;; k" := (bind m (fun _ => k))
  (at level 61, right associativity).

(** [with pymol2.PyMOL() as pymol: body]: the session is closed when the
    block is left, normally or by an exception. *)
Definition with_toolkit {A} (body : M A) : M A :=
  match body with
  | (r, t) => (r, ([EvOpenToolkit] ++ t ++ [EvCloseToolkit])%list)
  end.

(** [for x in xs: body] where [body] may [continue] (it just returns). *)
Fixpoint for_each {X} (body : X -> M unit) (xs : list X) : M unit :=
  match xs with
  | [] => ret tt
  | x :: rest => body x ;;; for_each body rest
  end.

Definition outcome {A} (m : M A) : res A := fst m.
Definition trace {A} (m : M A) : list event := snd m.

(** The events that are not log records. *)
Definition is_logb (e : event) : bool :=
  match e with EvLog _ _ => true | _ => false end.

Definition actions (tr : list event) : list event :=
  filter (fun e => negb (is_logb e)) tr.

(** ** Python string helpers on code points below 256 *)

Definition code (c : ascii) : nat := nat_of_ascii c.

(** [str.upper] restricted to ASCII letters. *)
Definition ascii_upper (c : ascii) : ascii :=
  let n := code c in
  if Nat.leb 97 n && Nat.leb n 122 then ascii_of_nat (n - 32) else c.

Fixpoint py_upper (s : string) : string :=
  match s with
  | EmptyString => EmptyString
  | String c s' => String (ascii_upper c) (py_upper s')
  end.

(** [str.isspace] for code points below 256. *)
Definition py_isspace (c : ascii) : bool :=
  let n := code c in
  (Nat.leb 9 n && Nat.leb n 13) || (Nat.leb 28 n && Nat.leb n 32)
  || Nat.eqb n 133 || Nat.eqb n 160.

Fixpoint lstrip (s : string) : string :=
  match s with
  | EmptyString => EmptyString
  | String c s' => if py_isspace c then lstrip s' else s
  end.

Definition rev_string (s : string) : string :=
  string_of_list_ascii (rev (list_ascii_of_string s)).

(** [str.strip()] *)
Definition py_strip (s : string) : string :=
  rev_string (lstrip (rev_string (lstrip s))).

Definition is_digit (c : ascii) : bool :=
  Nat.leb 48 (code c) && Nat.leb (code c) 57.

Definition digit_value (c : ascii) : Z := Z.of_nat (code c - 48).

(** Digits after the first one: [("_"? digit)*]. *)
Fixpoint digits_tail (s : string) (acc : Z) : option Z :=
  match s with
  | EmptyString => Some acc
  | String c s' =>
      if is_digit c then digits_tail s' (acc * 10 + digit_value c)%Z
      else if Ascii.eqb c "_" then
        match s' with
        | String c2 s'' =>
            if is_digit c2 then digits_tail s'' (acc * 10 + digit_value c2)%Z
            else None
        | EmptyString => None
        end
      else None
  end.

Definition digits (s : string) : option Z :=
  match s with
  | String c s' => if is_digit c then digits_tail s' (digit_value c) else None
  | EmptyString => None
  end.

(** [int(s)] on a [str] in base 10: [Some n], or [None] when Python raises
    [ValueError]. *)
Definition py_int (s : string) : option Z :=
  match py_strip s with
  | String c s' =>
      if Ascii.eqb c "-" then option_map Z.opp (digits s')
      else if Ascii.eqb c "+" then digits s'
      else digits (String c s')
  | EmptyString => None
  end.

(** ** Stage 2: [2_seq_alignment.py] *)

(** The fields of a [chempy] atom returned by [cmd.get_model] that the
    script reads, and its position (in any fixed length unit). *)
Record atom := mkAtom {
  name : string;
  chain : string;
  resi : string;
  resn : string;
  coord : Z * Z * Z
}.

(** [THREE_TO_ONE], in its source order. *)
Definition THREE_TO_ONE : list (string * string) :=
  [("ALA", "A"); ("ARG", "R"); ("ASN", "N"); ("ASP", "D"); ("CYS", "C");
   ("GLU", "E"); ("GLN", "Q"); ("GLY", "G"); ("HIS", "H"); ("ILE", "I");
   ("LEU", "L"); ("LYS", "K"); ("MET", "M"); ("PHE", "F"); ("PRO", "P");
   ("SER", "S"); ("THR", "T"); ("TRP", "W"); ("TYR", "Y"); ("VAL", "V")].

(** [dict.get(k, default)] on a dictionary kept as an association list. *)
Fixpoint dict_get {V} (d : list (string * V)) (k : string) (default : V) : V :=
  match d with
  | [] => default
  | (k', v) :: d' => if String.eqb k k' then v else dict_get d' k default
  end.

(** [THREE_TO_ONE.get(atom.resn.upper(), "X")] *)
Definition residue_letter (a : atom) : string :=
  dict_get THREE_TO_ONE (py_upper (resn a)) "X".

(** The second component of [sort_key(atom)]: [int(atom.resi)], or the
    string itself when [int] raises [ValueError]. *)
Inductive rkey := KInt (n : Z) | KStr (s : string).

Definition sort_key (a : atom) : string * rkey :=
  (chain a, match py_int (resi a) with
            | Some n => KInt n
            | None => KStr (resi a)
            end).

(** [==] between two key components: [int == str] is [False]. *)
Definition rkey_eqb (k1 k2 : rkey) : bool :=
  match k1, k2 with
  | KInt a, KInt b => Z.eqb a b
  | KStr a, KStr b => String.eqb a b
  | _, _ => false
  end.

(** [<] between two key components; [None] is the [TypeError] raised for
    [int < str] and [str < int]. *)
Definition rkey_lt (k1 k2 : rkey) : option bool :=
  match k1, k2 with
  | KInt a, KInt b => Some (Z.ltb a b)
  | KStr a, KStr b => Some (String.ltb a b)
  | _, _ => None
  end.

(** Python's [<] on 2-tuples: find the first position whose items differ
    under [==], then compare those items with [<]. *)
Definition key_lt (k1 k2 : string * rkey) : option bool :=
  let (c1, r1) := k1 in
  let (c2, r2) := k2 in
  if String.eqb c1 c2 then
    if rkey_eqb r1 r2 then Some false else rkey_lt r1 r2
  else Some (String.ltb c1 c2).

(** [sorted(xs, key=f)]: a stable comparison sort, [None] when a key
    comparison raises.  CPython's list sort for fewer than 64 items is an
    insertion sort; this is the insertion sort that inserts every item after
    all the items it is not smaller than.  Every stable comparison sort
    returns the same list when no comparison raises, and a comparison sort
    that is correct must compare each pair of items that end up adjacent, so
    it raises on the same inputs. *)
Fixpoint insert_by {A} (lt : A -> A -> option bool) (x : A) (l : list A)
  : option (list A) :=
  match l with
  | [] => Some [x]
  | y :: l' =>
      match lt x y with
      | None => None
      | Some true => Some (x :: y :: l')
      | Some false => option_map (cons y) (insert_by lt x l')
      end
  end.

Fixpoint sort_acc {A} (lt : A -> A -> option bool) (acc : list A) (l : list A)
  : option (list A) :=
  match l with
  | [] => Some acc
  | x :: l' =>
      match insert_by lt x acc with
      | None => None
      | Some acc' => sort_acc lt acc' l'
      end
  end.

Definition py_sorted {A} (key : A -> string * rkey) (l : list A)
  : option (list A) :=
  sort_acc (fun a b => key_lt (key a) (key b)) [] l.

Definition nl : string := String (ascii_of_nat 10) EmptyString.

(** A PyMOL session: its objects, in [cmd.get_object_list()] order, each
    with its atoms in object order. *)
Definition session := list (string * list atom).

Fixpoint lookup_object (objs : session) (o : string) : option (list atom) :=
  match objs with
  | [] => None
  | (o', atoms) :: objs' =>
      if String.eqb o o' then Some atoms else lookup_object objs' o
  end.

(** [name CA]: PyMOL matches atom names ignoring case (its [ignore_case]
    setting is on by default), so [ca] and [Ca] are selected as well. *)
Definition is_CA (a : atom) : bool := String.eqb (py_upper (name a)) "CA".

Section Stage2.

(** [within a b]: atom [a] lies within 2.0 A of atom [b] on the current
    (aligned) coordinates; PyMOL evaluates it. *)
Variable within : atom -> atom -> bool.
(** Whether the two [cmd.select] calls for a target go through, whether
    [cmd.get_model] does, and whether [open(file, "w")] does. *)
Variable select_ok : string -> bool.
Variable model_ok : string -> bool.
Variable write_ok : string -> bool.

(** ["<sel> and name CA within 2.0 of <other>"] *)
Definition ca_within (sel other : list atom) : list atom :=
  filter (fun a => is_CA a && existsb (within a) other) sel.

(** The [for i in range(n_aligned)] loop building both strings. *)
Fixpoint letters_loop (n : nat) (ra ta : list atom) (r t : string)
  : string * string :=
  match n, ra, ta with
  | S n', a :: ra', b :: ta' =>
      letters_loop n' ra' ta' (r ++ residue_letter a) (t ++ residue_letter b)
  | _, _, _ => (r, t)
  end.

(** [extract_aligned_sequence(cmd, target)]; [None] is [(None, None)]. *)
Definition extract_aligned_sequence (objs : session) (target : string)
  : M (option (string * string)) :=
  emit (EvLog INFO "create selections") ;;;
  match lookup_object objs "ref", lookup_object objs target with
  | Some ref_all, Some tgt_all =>
    if negb (select_ok target) then
      emit (EvLog ERROR "select failed") ;;; ret None
    else if negb (model_ok target) then
      emit (EvLog ERROR "get_model failed") ;;; ret None
    else
    let ref_model := ca_within ref_all tgt_all in
    let target_model := ca_within tgt_all ref_all in
    match ref_model, target_model with
    | [], _ | _, [] => emit (EvLog ERROR "no CA atoms") ;;; ret None
    | _, _ =>
      match py_sorted sort_key ref_model with
      | None => raise TypeError
      | Some ref_atoms =>
      match py_sorted sort_key target_model with
      | None => raise TypeError
      | Some target_atoms =>
      let n_aligned := Nat.min (length ref_atoms) (length target_atoms) in
      if Nat.eqb n_aligned 0 then
        emit (EvLog ERROR "empty aligned region") ;;; ret None
      else
      (if Nat.eqb (length ref_atoms) (length target_atoms) then ret tt
       else emit (EvLog WARNING "CA count mismatch")) ;;;
      let (ref_seq_aligned, target_seq_aligned) :=
        letters_loop n_aligned ref_atoms target_atoms "" "" in
      emit (EvLog INFO "aligned residues") ;;;
      ret (Some (ref_seq_aligned, target_seq_aligned))
      end end
    end
  | _, _ =>
    (* a name that is not an object makes the selection invalid *)
    emit (EvLog ERROR "select failed") ;;; ret None
  end.

Definition fasta_output (target ref_aln tgt_aln : string) : string :=
  ">ref_aligned" ++ nl ++ ref_aln ++ nl ++
  ">" ++ target ++ "_aligned" ++ nl ++ tgt_aln ++ nl.

Definition output_filename (target : string) : string :=
  target ++ "_seq_align.fasta".

(** The body of [for target in target_objects]. *)
Definition process_target (objs : session) (target : string) : M unit :=
  emit (EvLog INFO "process target") ;;;
  o <- extract_aligned_sequence objs target ;;
  match o with
  | None => emit (EvLog ERROR "extraction failed")
  | Some (ref_aln, tgt_aln) =>
      let file := output_filename target in
      if write_ok file then
        emit (EvWrite file (fasta_output target ref_aln tgt_aln)) ;;;
        emit (EvLog INFO "file written")
      else emit (EvLog ERROR "write failed")
  end.

Definition target_objects (objs : session) : list string :=
  filter (fun o => negb (String.eqb o "ref") && negb (String.eqb o "session"))
    (map fst objs).

(** [main()]; [loaded] is the session [cmd.load("alignment.pse")] gives,
    [None] when it raises.  The [with] body answers whether it ran to its
    end ([false] for an early [return]). *)
Definition main2 (loaded : option session) : M unit :=
  emit (EvLog INFO "start") ;;;
  finished <- with_toolkit (
    emit (EvLog INFO "load session") ;;;
    emit (EvLoad "alignment.pse" "session") ;;;
    match loaded with
    | None => emit (EvLog ERROR "session load failed") ;;; ret false
    | Some objs =>
      match target_objects objs with
      | [] => emit (EvLog ERROR "no target objects") ;;; ret false
      | targets => for_each (process_target objs) targets ;;; ret true
      end
    end) ;;
  if finished then emit (EvLog INFO "end") else ret tt.

End Stage2.

(** ** Stage 1: [1_ce_align.py] *)

(** [os.path.splitext(name)[0]]: cut at the last ['.'] when a character
    other than ['.'] precedes it. *)
Fixpoint drop_ext_rev (r : list ascii) : option (list ascii) :=
  match r with
  | [] => None
  | c :: r' =>
      if Ascii.eqb c "." then
        if existsb (fun d => negb (Ascii.eqb d ".")) r' then Some r' else None
      else drop_ext_rev r'
  end.

Definition splitext_root (s : string) : string :=
  match drop_ext_rev (rev (list_ascii_of_string s)) with
  | Some r => string_of_list_ascii (rev r)
  | None => s
  end.

Section Stage1.

(** [os.path.join(os.getcwd(), "pdbs")] *)
Variable pdb_folder : string.
(** [os.path.exists(ref_filepath)] *)
Variable ref_exists : bool.
(** The names in the [pdbs] directory, in the order [glob] lists them. *)
Variable listing : list string.
(** Whether [cmd.load(path, ...)], [cmd.cealign("ref", obj)] and
    [cmd.save(file)] return instead of raising. *)
Variable load_ok : string -> bool.
Variable cealign_ok : string -> bool.
Variable save_ok : bool.

Definition pdb_path (f : string) : string := pdb_folder ++ "/" ++ f.

Definition cmd_load (path obj : string) : M unit :=
  emit (EvLoad path obj) ;;;
  if load_ok path then ret tt else raise CmdException.

Definition cmd_save (file : string) : M unit :=
  emit (EvSave file) ;;;
  if save_ok then ret tt else raise CmdException.

(** The body of [for pdb_path in pdb_files]. *)
Definition align_one (f : string) : M unit :=
  let base_name := splitext_root f in
  emit (EvLog INFO "load target") ;;;
  cmd_load (pdb_path f) base_name ;;;
  emit (EvLog INFO "cealign") ;;;
  emit (EvCeAlign "ref" base_name) ;;;
  if cealign_ok base_name then emit (EvLog INFO "RMSD")
  else emit (EvLog ERROR "cealign raised").

(** [glob] matches ["*.pdb"] against the names that do not start with
    ['.'] (a leading ['.'] must be matched by the pattern itself). *)
Definition glob_pdb_match (f : string) : bool :=
  match f with
  | String c _ => negb (Ascii.eqb c ".")
  | EmptyString => false
  end && String.prefix (rev_string ".pdb") (rev_string f).

Definition other_pdb_files : list string :=
  filter (fun f => negb (String.eqb f "ref.pdb")) (filter glob_pdb_match listing).

Definition main1 : M unit :=
  emit (EvLog INFO "start") ;;;
  if negb ref_exists then emit (EvLog ERROR "reference missing")
  else
  match other_pdb_files with
  | [] => emit (EvLog ERROR "no other pdb files")
  | pdb_files =>
    with_toolkit (
      emit (EvLog INFO "load reference") ;;;
      cmd_load (pdb_path "ref.pdb") "ref" ;;;
      for_each align_one pdb_files ;;;
      emit (EvLog INFO "save session") ;;;
      cmd_save "alignment.pse") ;;;
    emit (EvLog INFO "end")
  end.

End Stage1.

(** ** Stage 3: [3_msa_generator.py] *)

Definition LF : ascii := ascii_of_nat 10.
Definition CR : ascii := ascii_of_nat 13.

(** Text-mode reading translates ["\r\n"] and ["\r"] to ["\n"]. *)
Fixpoint univ_newlines (s : string) : string :=
  match s with
  | EmptyString => EmptyString
  | String c s' =>
      if Ascii.eqb c CR then
        match s' with
        | String c2 s'' =>
            if Ascii.eqb c2 LF then String LF (univ_newlines s'')
            else String LF (univ_newlines s')
        | EmptyString => String LF EmptyString
        end
      else String c (univ_newlines s')
  end.

(** Line boundaries of [str.splitlines] below code point 256. *)
Definition is_line_break (c : ascii) : bool :=
  let n := code c in
  (Nat.leb 10 n && Nat.leb n 13) || (Nat.leb 28 n && Nat.leb n 30)
  || Nat.eqb n 133.

(** [str.splitlines()] once ["\r\n"] is gone; [cur] is the current line. *)
Fixpoint splitlines_from (s cur : string) : list string :=
  match s with
  | EmptyString => if String.eqb cur "" then [] else [cur]
  | String c s' =>
      if is_line_break c then cur :: splitlines_from s' ""
      else splitlines_from s' (cur ++ String c "")
  end.

Definition splitlines (s : string) : list string := splitlines_from s "".

(** A Python dict keyed by strings, in insertion order. *)
Definition dict V := list (string * V).

(** [d[k] = v]: an existing key keeps its position. *)
Fixpoint dict_set {V} (k : string) (v : V) (d : dict V) : dict V :=
  match d with
  | [] => [(k, v)]
  | (k', v') :: d' =>
      if String.eqb k k' then (k, v) :: d' else (k', v') :: dict_set k v d'
  end.

Definition starts_with_gt (line : string) : bool :=
  match line with
  | String c _ => Ascii.eqb c ">"
  | EmptyString => false
  end.

(** [line[1:]] *)
Definition drop1 (line : string) : string :=
  match line with
  | String _ s => s
  | EmptyString => EmptyString
  end.

(** The [for line in lines] loop of [parse_fasta] and the final flush. *)
Fixpoint parse_lines (lines : list string) (header : option string)
    (seq_lines : list string) (sequences : dict string) : dict string :=
  match lines with
  | [] =>
      match header with
      | Some h => dict_set h (String.concat "" seq_lines) sequences
      | None => sequences
      end
  | line :: rest =>
      if starts_with_gt line then
        let sequences' :=
          match header with
          | Some h => dict_set h (String.concat "" seq_lines) sequences
          | None => sequences
          end in
        parse_lines rest (Some (py_strip (drop1 line))) [] sequences'
      else parse_lines rest header (seq_lines ++ [py_strip line]) sequences
  end.

(** [parse_fasta] on the text stored in the file. *)
Definition parse_fasta (text : string) : dict string :=
  parse_lines (splitlines (univ_newlines text)) None [] [].

(** [str.replace(old, new)] for a non-empty [old]: non-overlapping
    occurrences, left to right; [skip] counts characters of a match that
    has already been replaced. *)
Fixpoint replace_from (old new : string) (skip : nat) (s : string) : string :=
  match s with
  | EmptyString => EmptyString
  | String c s' =>
      match skip with
      | S k => replace_from old new k s'
      | O =>
          if String.prefix old s then
            new ++ replace_from old new (String.length old - 1) s'
          else String c (replace_from old new 0 s')
      end
  end.

Definition py_replace (s old new : string) : string := replace_from old new 0 s.

(** The text the final [for seq_name, sequence in msa.items()] loop writes. *)
Fixpoint msa_text (msa : dict string) : string :=
  match msa with
  | [] => ""
  | (seq_name, sequence) :: rest =>
      ">" ++ seq_name ++ nl ++ sequence ++ nl ++ msa_text rest
  end.

Section Stage3.

(** [glob.glob("*_seq_align.fasta")] in its order. *)
Variable fasta_files : list string.
(** The text of a file, [None] when opening or decoding it raises. *)
Variable read_file : string -> option string.
(** Whether [open("aligned.msa.fasta", "w")] and the writes go through. *)
Variable msa_write_ok : bool.

Definition ref_key : string := "ref_aligned".

(** The [for fasta_file in fasta_files] loop; it threads [ref_sequences]
    and [targets]. *)
Fixpoint collect (files : list string) (ref_sequences : list string)
    (targets : dict string) : M (list string * dict string) :=
  match files with
  | [] => ret (ref_sequences, targets)
  | fasta_file :: rest =>
    emit (EvLog INFO "process file") ;;;
    match read_file fasta_file with
    | None =>
        emit (EvLog ERROR "parse failed") ;;;
        collect rest ref_sequences targets
    | Some text =>
      let seq_dict := parse_fasta text in
      if negb (existsb (String.eqb ref_key) (map fst seq_dict)) then
        emit (EvLog ERROR "missing ref_aligned") ;;;
        collect rest ref_sequences targets
      else
      match filter (fun k => negb (String.eqb k ref_key)) (map fst seq_dict) with
      | [target_key] =>
          let ref_seq := dict_get seq_dict ref_key "" in
          let target_seq := dict_get seq_dict target_key "" in
          let target_name := py_replace target_key "_aligned" "" in
          collect rest (ref_sequences ++ [ref_seq])
            (dict_set target_name target_seq targets)
      | _ =>
          emit (EvLog ERROR "unexpected target count") ;;;
          collect rest ref_sequences targets
      end
    end
  end.

Definition build_msa (first_ref : string) (targets : dict string) : dict string :=
  fold_left (fun msa '(target_name, sequence) => dict_set target_name sequence msa)
    targets [("ref", first_ref)].

Definition main3 : M unit :=
  emit (EvLog INFO "start") ;;;
  match fasta_files with
  | [] => emit (EvLog ERROR "no fasta files")
  | _ =>
    st <- collect fasta_files [] [] ;;
    let (ref_sequences, targets) := st in
    match ref_sequences with
    | [] => emit (EvLog ERROR "no reference sequences")
    | first_ref :: _ =>
      (if forallb (fun sq => String.eqb sq first_ref) ref_sequences
       then emit (EvLog INFO "references consistent")
       else emit (EvLog WARNING "references differ")) ;;;
      let msa := build_msa first_ref targets in
      (if msa_write_ok then
         emit (EvWrite "aligned.msa.fasta" (msa_text msa)) ;;;
         emit (EvLog INFO "msa written")
       else emit (EvLog ERROR "msa write failed")) ;;;
      emit (EvLog INFO "end")
    end
  end.

End Stage3.

(** * Helpers for the statements, and concrete inputs *)

(** Both components are [int]s or both are [str]s. *)
Definition same_kind (r1 r2 : rkey) : Prop :=
  match r1, r2 with
  | KInt _, KInt _ | KStr _, KStr _ => True
  | _, _ => False
  end.

(** What a successful comparison tells about two keys: the chains are in
    order, and equal chains come with comparable residue keys. *)
Definition key_le (k1 k2 : string * rkey) : Prop :=
  String.leb (fst k1) (fst k2) = true /\
  (fst k1 = fst k2 -> same_kind (snd k1) (snd k2)).

Definition atom_le (a b : atom) : Prop := key_le (sort_key a) (sort_key b).

(** The residue letters of a list of atoms, one per atom. *)
Fixpoint letters (l : list atom) : string :=
  match l with
  | [] => ""
  | a :: l' => residue_letter a ++ letters l'
  end.

Definition mismatch_warning : event := EvLog WARNING "CA count mismatch".

Definition is_log (e : event) : Prop := exists l s, e = EvLog l s.

Definition dist2 (p q : Z * Z * Z) : Z :=
  let '(x1, y1, z1) := p in
  let '(x2, y2, z2) := q in
  ((x1 - x2) * (x1 - x2) + (y1 - y2) * (y1 - y2) + (z1 - z2) * (z1 - z2))%Z.

(** [within 2.0 of] with coordinates in thousandths of an angstrom. *)
Definition within_2A (a b : atom) : bool :=
  Z.leb (dist2 (coord a) (coord b)) (2000 * 2000)%Z.

Definition always_true (_ : string) : bool := true.

Definition ref_atoms : list atom :=
  [mkAtom "CA" "A" "1" "ALA" (0, 0, 0)%Z;
   mkAtom "CA" "A" "2" "GLY" (3800, 0, 0)%Z].

(** A target whose two CA atoms sit 0.5 A from the reference's. *)
Definition t1_atoms : list atom :=
  [mkAtom "CA" "A" "1" "SER" (0, 0, 500)%Z;
   mkAtom "CA" "A" "2" "VAL" (3800, 0, 500)%Z].

(** A target with one close CA and one close non-CA atom. *)
Definition t2_atoms : list atom :=
  [mkAtom "CA" "A" "1" "SER" (0, 0, 500)%Z;
   mkAtom "N" "A" "2" "VAL" (3800, 0, 500)%Z].

(** A target with an insertion code: residues ["1"] and ["1A"] of chain A. *)
Definition bad_atoms : list atom :=
  [mkAtom "CA" "A" "1" "SER" (0, 0, 500)%Z;
   mkAtom "CA" "A" "1A" "VAL" (3800, 0, 500)%Z].

Definition ref_mixed_atoms : list atom :=
  [mkAtom "CA" "A" "1" "ALA" (0, 0, 0)%Z;
   mkAtom "CA" "A" "1A" "GLY" (3800, 0, 0)%Z].

(** A target whose close atoms are not CA atoms and whose CA is far. *)
Definition far_ca_atoms : list atom :=
  [mkAtom "N" "A" "1" "SER" (0, 0, 500)%Z;
   mkAtom "N" "A" "2" "VAL" (3800, 0, 500)%Z;
   mkAtom "CA" "A" "3" "LYS" (10000, 0, 0)%Z].

Definition session_ok : session :=
  [("ref", ref_atoms); ("t1", t1_atoms); ("t2", t2_atoms)].

Definition session_with_session_object : session :=
  [("ref", ref_atoms); ("session", t1_atoms)].

Definition session_bad_first : session :=
  [("ref", ref_atoms); ("bad", bad_atoms); ("t1", t1_atoms)].

Definition session_far_ca : session :=
  [("ref", ref_mixed_atoms); ("far", far_ca_atoms)].

Definition no_line_break (s : string) : bool :=
  forallb (fun c => negb (is_line_break c)) (list_ascii_of_string s).

(** What the round trip needs of one [(header, sequence)] entry. *)
Definition entry_ok (e : string * string) : Prop :=
  let (k, v) := e in
  no_line_break k = true /\ py_strip k = k /\
  no_line_break v = true /\ py_strip v = v /\ starts_with_gt v = false.

Definition lines_of (es : dict string) : list string :=
  flat_map (fun '(k, v) => [">" ++ k; v]) es.

Definition set_entry (d : dict string) (e : string * string) : dict string :=
  let (k, v) := e in dict_set k v d.

Fixpoint dict_lookup {V} (d : dict V) (k : string) : option V :=
  match d with
  | [] => None
  | (k', v) :: d' => if String.eqb k k' then Some v else dict_lookup d' k
  end.

(** The sequence of the last entry with header [k]. *)
Fixpoint last_value (es : dict string) (k : string) : option string :=
  match es with
  | [] => None
  | (k', v) :: es' =>
      match last_value es' k with
      | Some x => Some x
      | None => if String.eqb k k' then Some v else None
      end
  end.

Definition quiet (e : event) : Prop :=
  exists msg, e = EvLog INFO msg \/ e = EvLog ERROR msg.

Definition msa_entries : dict string := [("ref", "AG"); ("t1", "SV"); ("t2", "AV")].

(** The [(header, sequence)] records of a FASTA text in file order, before
    they go into the dictionary: each ['>'] line opens one, the stripped
    lines up to the next ['>'] line make its sequence, and lines before the
    first ['>'] line belong to none. *)
Fixpoint fasta_records (lines : list string) (cur : option (string * list string))
  : list (string * string) :=
  match lines with
  | [] =>
      match cur with
      | Some (h, sl) => [(h, String.concat "" sl)]
      | None => []
      end
  | line :: rest =>
      if starts_with_gt line then
        (match cur with
         | Some (h, sl) => [(h, String.concat "" sl)]
         | None => []
         end ++ fasta_records rest (Some (py_strip (drop1 line), [])))%list
      else
        fasta_records rest
          (match cur with
           | Some (h, sl) => Some (h, (sl ++ [py_strip line])%list)
           | None => None
           end)
  end.

Definition file_records (text : string) : list (string * string) :=
  fasta_records (splitlines (univ_newlines text)) None.

Definition read_fixture (f : string) : option string :=
  if String.eqb f "a_seq_align.fasta" then Some (fasta_output "a" "AG" "SV")
  else if String.eqb f "b_seq_align.fasta" then Some (fasta_output "b" "AC" "SW")
  else None.

Definition fixture_files : list string := ["a_seq_align.fasta"; "b_seq_align.fasta"].

(** The toolkit calls of one loop iteration. *)
Definition align_actions (pdb_folder f : string) : list event :=
  [EvLoad (pdb_path pdb_folder f) (splitext_root f); EvCeAlign "ref" (splitext_root f)].

Definition toolkit_free (e : event) : bool :=
  match e with EvOpenToolkit | EvCloseToolkit => false | _ => true end.

Definition log_or_write (e : event) : bool :=
  match e with EvLog _ _ | EvWrite _ _ => true | _ => false end.

Definition pdb_listing : list string := ["ref.pdb"; "a.pdb"; "notes.txt"; ".b.pdb"].

(** Neither a save nor the closing log line. *)
Definition not_save_end (e : event) : bool :=
  match e with
  | EvSave _ => false
  | EvLog _ msg => negb (String.eqb msg "end")
  | _ => true
  end.

(** The values of [THREE_TO_ONE] and the default ["X"]. *)
Definition amino_alphabet : string := "ACDEFGHIKLMNPQRSTVWYX".

Definition over_alphabet (s : string) : bool :=
  forallb (fun c => existsb (Ascii.eqb c) (list_ascii_of_string amino_alphabet))
    (list_ascii_of_string s).

(** The text with every LF written as CR LF. *)
Fixpoint to_crlf (s : string) : string :=
  match s with
  | EmptyString => EmptyString
  | String c s' =>
      if Ascii.eqb c LF then String CR (String LF (to_crlf s'))
      else String c (to_crlf s')
  end.

(** The files the [for fasta_file] loop skips with an error: unreadable,
    without ["ref_aligned"], or without exactly one other header. *)
Definition rejected (read_file : string -> option string) (f : string) : bool :=
  match read_file f with
  | None => true
  | Some text =>
      let keys := map fst (parse_fasta text) in
      negb (existsb (String.eqb ref_key) keys) ||
      negb (Nat.eqb (length (filter (fun k => negb (String.eqb k ref_key)) keys)) 1)
  end.

(** Whether [pat] occurs in [s] ([pat in s]). *)
Fixpoint contains (pat s : string) : bool :=
  String.prefix pat s ||
  match s with
  | EmptyString => false
  | String _ s' => contains pat s'
  end.

(** * Proofs *)

(** ** The monad *)

Lemma outcome_bind {A B} (m : M A) (k : A -> M B) :
  outcome (bind m k) =
  match outcome m with Ok a => outcome (k a) | Exc e => Exc e end.
Proof.
  destruct m as [[a|e] t]; simpl; [destruct (k a)|]; reflexivity.
Qed.

Lemma trace_bind {A B} (m : M A) (k : A -> M B) :
  trace (bind m k) =
  (trace m ++ match outcome m with Ok a => trace (k a) | Exc _ => [] end)%list.
Proof.
  destruct m as [[a|e] t]; simpl; [destruct (k a)|rewrite app_nil_r]; reflexivity.
Qed.

Lemma outcome_with_toolkit {A} (b : M A) :
  outcome (with_toolkit b) = outcome b.
Proof. destruct b; reflexivity. Qed.

Lemma trace_with_toolkit {A} (b : M A) :
  trace (with_toolkit b) = (EvOpenToolkit :: trace b ++ [EvCloseToolkit])%list.
Proof. destruct b; reflexivity. Qed.

Create Rewrite HintDb monad.

#[local] Hint Rewrite @outcome_bind @trace_bind @outcome_with_toolkit
  @trace_with_toolkit : monad.

Ltac msimpl := autorewrite with monad in *; simpl in *.

Lemma for_each_app {X} (body : X -> M unit) (xs ys : list X) :
  outcome (for_each body xs) = Ok tt ->
  outcome (for_each body (xs ++ ys)) = outcome (for_each body ys) /\
  trace (for_each body (xs ++ ys)) =
    (trace (for_each body xs) ++ trace (for_each body ys))%list.
Proof.
  induction xs as [|x xs IH]; intros H; simpl in *.
  - split; reflexivity.
  - msimpl. destruct (outcome (body x)) as [[]|e]; [|discriminate].
    destruct (IH H) as [H1 H2]. rewrite H1, H2, app_assoc. split; reflexivity.
Qed.

Lemma for_each_ok {X} (body : X -> M unit) (xs : list X) :
  (forall x, In x xs -> outcome (body x) = Ok tt) ->
  outcome (for_each body xs) = Ok tt.
Proof.
  induction xs as [|x xs IH]; intros H; simpl; [reflexivity|].
  msimpl. rewrite H by (left; reflexivity). apply IH. intros; apply H; right; auto.
Qed.

Lemma in_trace_for_each {X} (body : X -> M unit) (xs : list X) e :
  In e (trace (for_each body xs)) -> exists x, In x xs /\ In e (trace (body x)).
Proof.
  induction xs as [|x xs IH]; simpl; [tauto|].
  msimpl. intros H. apply in_app_or in H as [H|H].
  - exists x; auto.
  - destruct (outcome (body x)) as [[]|]; [|contradiction].
    destruct (IH H) as (y & Hy & He). exists y; auto.
Qed.

(** ** Insertion sort: order and permutation *)

Section InsertionSort.

Context {A : Type} (lt : A -> A -> option bool) (R : A -> A -> Prop).
Hypothesis lt_true : forall x y, lt x y = Some true -> R x y.
Hypothesis lt_false : forall x y, lt x y = Some false -> R y x.

Lemma insert_by_perm x l l' :
  insert_by lt x l = Some l' -> Permutation (x :: l) l'.
Proof.
  revert l'. induction l as [|y l IH]; intros l' H; simpl in H.
  - injection H as <-. reflexivity.
  - destruct (lt x y) as [[]|]; try discriminate.
    + injection H as <-. reflexivity.
    + destruct (insert_by lt x l) as [l0|] eqn:E; [|discriminate].
      injection H as <-. rewrite perm_swap. constructor. apply IH; reflexivity.
Qed.

Lemma insert_by_hd y x l l' :
  insert_by lt x l = Some l' -> HdRel R y l -> R y x -> HdRel R y l'.
Proof.
  intros H Hd Hyx. destruct l as [|z l]; simpl in H.
  - injection H as <-. constructor; assumption.
  - destruct (lt x z) as [[]|]; try discriminate.
    + injection H as <-. constructor; assumption.
    + destruct (insert_by lt x l); [|discriminate]. injection H as <-.
      constructor. inversion Hd; assumption.
Qed.

Lemma insert_by_sorted x l l' :
  Sorted R l -> insert_by lt x l = Some l' -> Sorted R l'.
Proof.
  revert l'. induction l as [|y l IH]; intros l' Hs H; simpl in H.
  - injection H as <-. repeat constructor.
  - destruct (lt x y) as [[]|] eqn:Exy; try discriminate.
    + injection H as <-. constructor; [assumption|]. constructor; auto.
    + destruct (insert_by lt x l) as [l0|] eqn:E; [|discriminate].
      injection H as <-. apply Sorted_inv in Hs as [Hs Hd].
      constructor; [apply IH; auto|]. eapply insert_by_hd; eauto.
Qed.

Lemma sort_acc_spec acc l s :
  Sorted R acc -> sort_acc lt acc l = Some s ->
  Sorted R s /\ Permutation (acc ++ l) s.
Proof.
  revert acc. induction l as [|x l IH]; intros acc Hs H; simpl in H.
  - injection H as <-. rewrite app_nil_r. auto.
  - destruct (insert_by lt x acc) as [acc'|] eqn:E; [|discriminate].
    destruct (IH acc') as [H1 H2]; [eapply insert_by_sorted; eauto | exact H|].
    split; [exact H1|].
    rewrite <- H2, <- Permutation_middle.
    change (x :: acc ++ l)%list with ((x :: acc) ++ l)%list.
    apply Permutation_app_tail, insert_by_perm; exact E.
Qed.

End InsertionSort.

(** ** The order [sort_key] induces *)

Lemma string_leb_refl c : String.leb c c = true.
Proof. destruct (String.leb_total c c); assumption. Qed.

Lemma string_leb_trans a b c :
  String.leb a b = true -> String.leb b c = true -> String.leb a c = true.
Proof.
  unfold String.leb. revert b c.
  induction a as [|x a IH]; intros [|y b] [|z c]; simpl; auto; try discriminate.
  unfold Ascii.compare.
  destruct (N.compare_spec (N_of_ascii x) (N_of_ascii y)) as [E1|E1|E1];
  destruct (N.compare_spec (N_of_ascii y) (N_of_ascii z)) as [E2|E2|E2];
  destruct (N.compare_spec (N_of_ascii x) (N_of_ascii z)) as [E3|E3|E3];
  try lia; try discriminate; auto; apply IH.
Qed.

Lemma string_ltb_false c1 c2 :
  c1 <> c2 -> String.ltb c1 c2 = false -> String.leb c2 c1 = true.
Proof.
  unfold String.ltb, String.leb. rewrite (String.compare_antisym c2 c1).
  intros Hne. destruct (String.compare c1 c2) eqn:E; simpl; auto; discriminate.
Qed.

Lemma string_ltb_leb c1 c2 : String.ltb c1 c2 = true -> String.leb c1 c2 = true.
Proof.
  unfold String.ltb, String.leb. destruct (String.compare c1 c2); congruence.
Qed.

Lemma key_lt_true k1 k2 : key_lt k1 k2 = Some true -> key_le k1 k2.
Proof.
  destruct k1 as [c1 r1], k2 as [c2 r2]; unfold key_lt, key_le; simpl.
  destruct (String.eqb_spec c1 c2) as [<-|Hne]; intros H.
  - split; [apply string_leb_refl|intros _].
    destruct (rkey_eqb r1 r2); [discriminate|].
    destruct r1, r2; simpl in *; auto; discriminate.
  - injection H as H. split; [apply string_ltb_leb; exact H|contradiction].
Qed.

Lemma key_lt_false k1 k2 : key_lt k1 k2 = Some false -> key_le k2 k1.
Proof.
  destruct k1 as [c1 r1], k2 as [c2 r2]; unfold key_lt, key_le; simpl.
  destruct (String.eqb_spec c1 c2) as [<-|Hne]; intros H.
  - split; [apply string_leb_refl|intros _].
    destruct (rkey_eqb r1 r2) eqn:E;
      destruct r1, r2; simpl in *; auto; discriminate.
  - injection H as H. split; [apply string_ltb_false; assumption|].
    intros ->. contradiction.
Qed.

Lemma same_kind_trans r1 r2 r3 :
  same_kind r1 r2 -> same_kind r2 r3 -> same_kind r1 r3.
Proof. destruct r1, r2, r3; simpl; tauto. Qed.

Lemma key_le_trans k1 k2 k3 : key_le k1 k2 -> key_le k2 k3 -> key_le k1 k3.
Proof.
  unfold key_le. intros [H1 H1'] [H2 H2'].
  split; [eapply string_leb_trans; eauto|]. intros E.
  assert (E' : fst k1 = fst k2).
  { apply String.leb_antisym; [assumption|]. rewrite E. assumption. }
  eapply same_kind_trans; [apply H1'; exact E'|apply H2'; congruence].
Qed.

Lemma strongly_sorted_pair {A} (R : A -> A -> Prop) l a b :
  StronglySorted R l -> In a l -> In b l -> a = b \/ R a b \/ R b a.
Proof.
  induction 1 as [|x l Hs IH Hf]; simpl; [tauto|].
  rewrite Forall_forall in Hf.
  intros [<-|Ha] [<-|Hb]; auto.
Qed.

(** Python's [sorted] on the selected atoms with [sort_key]: when it returns,
    its result is a permutation of its input, ordered by [key_le]. *)
Lemma py_sorted_spec l s :
  py_sorted sort_key l = Some s ->
  StronglySorted atom_le s /\ Permutation l s.
Proof.
  unfold py_sorted. intros H.
  apply (sort_acc_spec _ atom_le) in H as [Hs Hp];
    [| intros; apply key_lt_true; assumption
     | intros; apply key_lt_false; assumption
     | constructor].
  split; [|exact Hp].
  apply Sorted_StronglySorted; [|exact Hs].
  intros x y z; unfold atom_le; apply key_le_trans.
Qed.

(** An atom whose [resi] parses as an [int] and an atom of the same chain
    whose [resi] does not: [sorted] raises on any list holding both. *)
Lemma py_sorted_mixed l a b :
  In a l -> In b l -> chain a = chain b ->
  py_int (resi a) <> None -> py_int (resi b) = None ->
  py_sorted sort_key l = None.
Proof.
  intros Ha Hb Hc Hia Hib.
  destruct (py_sorted sort_key l) as [s|] eqn:E; [exfalso|reflexivity].
  apply py_sorted_spec in E as [Hs Hp].
  apply (Permutation_in _ Hp) in Ha, Hb.
  destruct (strongly_sorted_pair _ _ _ _ Hs Ha Hb) as [<-|[H|H]];
    [contradiction|..];
    destruct H as [_ H]; unfold sort_key in H; simpl in H;
    specialize (H (eq_sym Hc)) || specialize (H Hc);
    rewrite Hib in H; destruct (py_int (resi a)); simpl in H; congruence.
Qed.

(** ** Strings built by the stage 2 loop *)

Lemma string_app_assoc (a b c : string) : (a ++ b) ++ c = a ++ (b ++ c).
Proof. induction a as [|x a IH]; simpl; [reflexivity|rewrite IH; reflexivity]. Qed.

Lemma string_app_nil_r (a : string) : a ++ "" = a.
Proof. induction a as [|x a IH]; simpl; [reflexivity|rewrite IH; reflexivity]. Qed.

Lemma string_length_app (a b : string) :
  String.length (a ++ b) = String.length a + String.length b.
Proof. induction a as [|x a IH]; simpl; auto. Qed.

Lemma residue_letter_length a : String.length (residue_letter a) = 1.
Proof.
  unfold residue_letter, THREE_TO_ONE, dict_get.
  repeat (destruct (String.eqb _ _); [reflexivity|]); reflexivity.
Qed.

Lemma letters_length l : String.length (letters l) = length l.
Proof.
  induction l as [|a l IH]; simpl; [reflexivity|].
  rewrite string_length_app, residue_letter_length, IH. reflexivity.
Qed.

Lemma letters_loop_spec n ra ta r0 t0 :
  letters_loop n ra ta r0 t0 =
  (r0 ++ letters (firstn (Nat.min n (Nat.min (length ra) (length ta))) ra),
   t0 ++ letters (firstn (Nat.min n (Nat.min (length ra) (length ta))) ta)).
Proof.
  revert ra ta r0 t0.
  induction n as [|n IH]; intros [|a ra] [|b ta] r0 t0; simpl;
    rewrite ?string_app_nil_r; try reflexivity.
  rewrite IH, !string_app_assoc. reflexivity.
Qed.

Section Stage2Proofs.

Variable within : atom -> atom -> bool.
Variable select_ok model_ok write_ok : string -> bool.

Local Abbreviation extract := (extract_aligned_sequence within select_ok model_ok).

(** A successful extraction, unfolded: the two selections, their sorted
    forms, and the strings; the warning is emitted exactly when the two
    selections differ in size. *)
Lemma extract_some objs target r t :
  outcome (extract objs target) = Ok (Some (r, t)) ->
  exists ref_all tgt_all ra ta,
    lookup_object objs "ref" = Some ref_all /\
    lookup_object objs target = Some tgt_all /\
    select_ok target = true /\ model_ok target = true /\
    py_sorted sort_key (ca_within within ref_all tgt_all) = Some ra /\
    py_sorted sort_key (ca_within within tgt_all ref_all) = Some ta /\
    Nat.min (length ra) (length ta) <> 0 /\
    r = letters (firstn (Nat.min (length ra) (length ta)) ra) /\
    t = letters (firstn (Nat.min (length ra) (length ta)) ta) /\
    (In mismatch_warning (trace (extract objs target)) <->
     length ra <> length ta).
Proof.
  unfold extract_aligned_sequence. msimpl.
  destruct (lookup_object objs "ref") as [ref_all|] eqn:Er; [|discriminate].
  destruct (lookup_object objs target) as [tgt_all|] eqn:Et; [|discriminate].
  destruct (select_ok target) eqn:Es; simpl; msimpl; [|discriminate].
  destruct (model_ok target) eqn:Em; simpl; msimpl; [|discriminate].
  remember (ca_within within ref_all tgt_all) as rm eqn:Erm.
  remember (ca_within within tgt_all ref_all) as tm eqn:Etm.
  destruct rm as [|a rm']; [msimpl; discriminate|].
  destruct tm as [|b tm']; [msimpl; discriminate|].
  destruct (py_sorted sort_key (a :: rm')) as [ra|] eqn:Ea; [|discriminate].
  destruct (py_sorted sort_key (b :: tm')) as [ta|] eqn:Eb; [|discriminate].
  destruct (Nat.eqb_spec (Nat.min (length ra) (length ta)) 0) as [E0|N0];
    [msimpl; discriminate|].
  rewrite letters_loop_spec, Nat.min_id. simpl.
  intros H. exists ref_all, tgt_all, ra, ta. rewrite <- Erm, <- Etm.
  destruct (Nat.eqb_spec (length ra) (length ta)) as [El|Nl]; msimpl;
    injection H as <- <-; repeat split; auto.
  intros Hin. repeat destruct Hin as [Hin|Hin]; try discriminate; contradiction.
Qed.

Lemma extract_only_logs objs target e :
  In e (trace (extract objs target)) -> is_log e.
Proof.
  unfold extract_aligned_sequence, is_log. msimpl.
  intros [<-|H]; [eauto|].
  destruct (lookup_object objs "ref"), (lookup_object objs target);
    simpl in H; msimpl; try (destruct H as [<-|[]]; eauto; fail).
  destruct (select_ok target); simpl in H; msimpl;
    [|destruct H as [<-|[]]; eauto].
  destruct (model_ok target); simpl in H; msimpl;
    [|destruct H as [<-|[]]; eauto].
  destruct (ca_within within l l0) as [|a rm]; simpl in H; msimpl;
    [destruct H as [<-|[]]; eauto|].
  destruct (ca_within within l0 l) as [|b tm]; simpl in H; msimpl;
    [destruct H as [<-|[]]; eauto|].
  destruct (py_sorted sort_key (a :: rm)) as [ra|]; [|contradiction].
  destruct (py_sorted sort_key (b :: tm)) as [ta|]; [|contradiction].
  destruct (Nat.min (length ra) (length ta) =? 0)%nat; msimpl;
    [destruct H as [<-|[]]; eauto|].
  destruct (letters_loop _ ra ta "" "").
  destruct (length ra =? length ta)%nat; msimpl;
    repeat destruct H as [<-|H]; eauto; contradiction.
Qed.

Lemma process_target_outcome objs target :
  outcome (process_target within select_ok model_ok write_ok objs target) =
  match outcome (extract objs target) with Ok _ => Ok tt | Exc e => Exc e end.
Proof.
  unfold process_target. msimpl.
  destruct (outcome (extract objs target)) as [[[r t]|]|e]; msimpl; auto.
  destruct (write_ok (output_filename target)); reflexivity.
Qed.

Lemma process_target_write objs target r t :
  outcome (extract objs target) = Ok (Some (r, t)) ->
  write_ok (output_filename target) = true ->
  In (EvWrite (output_filename target) (fasta_output target r t))
    (trace (process_target within select_ok model_ok write_ok objs target)).
Proof.
  intros He Hw. unfold process_target. msimpl. rewrite He. msimpl.
  rewrite Hw. simpl. right. apply in_or_app. right. left. reflexivity.
Qed.

Lemma process_target_writes_inv objs target file content :
  In (EvWrite file content)
    (trace (process_target within select_ok model_ok write_ok objs target)) ->
  exists r t, outcome (extract objs target) = Ok (Some (r, t)) /\
    file = output_filename target /\ content = fasta_output target r t.
Proof.
  unfold process_target. msimpl. intros [H|H]; [discriminate|].
  apply in_app_or in H as [H|H].
  - apply extract_only_logs in H as (? & ? & ?). discriminate.
  - destruct (outcome (extract objs target)) as [[[r t]|]|e]; simpl in H;
      [|destruct H as [H|[]]; discriminate|contradiction].
    destruct (write_ok (output_filename target)); simpl in H;
      repeat destruct H as [H|H]; try discriminate; try contradiction.
    injection H as <- <-. eauto.
Qed.

(** [main] once the session is loaded and has targets. *)
Lemma main2_targets objs :
  target_objects objs <> [] ->
  let loop := for_each (process_target within select_ok model_ok write_ok objs)
                (target_objects objs) in
  outcome (main2 within select_ok model_ok write_ok (Some objs)) =
    outcome loop /\
  trace (main2 within select_ok model_ok write_ok (Some objs)) =
    (EvLog INFO "start" :: EvOpenToolkit :: EvLog INFO "load session" ::
     EvLoad "alignment.pse" "session" ::
     trace loop ++ EvCloseToolkit ::
     match outcome loop with Ok _ => [EvLog INFO "end"] | Exc _ => [] end)%list.
Proof.
  intros Hne loop. unfold main2. subst loop.
  destruct (target_objects objs) as [|x xs]; [contradiction|].
  remember (for_each (process_target within select_ok model_ok write_ok objs)
    (x :: xs)) as L eqn:EL. clear EL.
  destruct L as [[[]|e] tr]; simpl; rewrite <- ?app_assoc; simpl; auto.
Qed.

Lemma main2_writes_inv loaded file content :
  In (EvWrite file content)
    (trace (main2 within select_ok model_ok write_ok loaded)) ->
  exists objs target r t,
    loaded = Some objs /\ In target (target_objects objs) /\
    outcome (extract objs target) = Ok (Some (r, t)) /\
    file = output_filename target /\ content = fasta_output target r t.
Proof.
  destruct loaded as [objs|].
  2:{ unfold main2. msimpl. intros H.
      repeat destruct H as [H|H]; try discriminate; contradiction. }
  destruct (target_objects objs) as [|x xs] eqn:Et.
  - unfold main2. msimpl. rewrite Et. msimpl. intros H.
    repeat destruct H as [H|H]; try discriminate; contradiction.
  - destruct (main2_targets objs) as [_ Htr]; [congruence|].
    rewrite Htr, Et. intros H.
    repeat (destruct H as [H|H]; [discriminate|]).
    apply in_app_or in H as [H|H].
    + apply in_trace_for_each in H as (u & Hu & Hw).
      apply process_target_writes_inv in Hw as (r & t & H1 & H2 & H3).
      exists objs, u, r, t. rewrite Et. auto.
    + destruct H as [H|H]; [discriminate|].
      match type of H with In _ (match ?o with _ => _ end) =>
        destruct o as [[]|] end; simpl in H;
        repeat destruct H as [H|H]; try discriminate; contradiction.
Qed.

Lemma process_target_write_ok objs target file content :
  In (EvWrite file content)
    (trace (process_target within select_ok model_ok write_ok objs target)) ->
  write_ok file = true.
Proof.
  unfold process_target. msimpl. intros [H|H]; [discriminate|].
  apply in_app_or in H as [H|H].
  - apply extract_only_logs in H as (? & ? & ?). discriminate.
  - destruct (outcome (extract objs target)) as [[[r t]|]|e]; simpl in H;
      [|destruct H as [H|[]]; discriminate|contradiction].
    destruct (write_ok (output_filename target)) eqn:Ew; simpl in H;
      repeat destruct H as [H|H]; try discriminate; try contradiction.
    injection H as <- _. exact Ew.
Qed.

Lemma main2_write_ok loaded file content :
  In (EvWrite file content)
    (trace (main2 within select_ok model_ok write_ok loaded)) ->
  write_ok file = true.
Proof.
  destruct loaded as [objs|].
  2:{ unfold main2. msimpl. intros H.
      repeat destruct H as [H|H]; try discriminate; contradiction. }
  destruct (target_objects objs) as [|x xs] eqn:Et.
  - unfold main2. msimpl. rewrite Et. msimpl. intros H.
    repeat destruct H as [H|H]; try discriminate; contradiction.
  - destruct (main2_targets objs) as [_ Htr]; [congruence|].
    rewrite Htr, Et. intros H.
    repeat (destruct H as [H|H]; [discriminate|]).
    apply in_app_or in H as [H|H].
    + apply in_trace_for_each in H as (u & _ & Hw).
      exact (process_target_write_ok objs u file content Hw).
    + destruct H as [H|H]; [discriminate|].
      match type of H with In _ (match ?o with _ => _ end) =>
        destruct o as [[]|] end; simpl in H;
        repeat destruct H as [H|H]; try discriminate; contradiction.
Qed.

Lemma process_target_write_failed objs target r t :
  outcome (extract objs target) = Ok (Some (r, t)) ->
  write_ok (output_filename target) = false ->
  In (EvLog ERROR "write failed")
    (trace (process_target within select_ok model_ok write_ok objs target)).
Proof.
  intros He Hw. unfold process_target. msimpl. rewrite He. msimpl.
  rewrite Hw. simpl. right. apply in_or_app. right. left. reflexivity.
Qed.

End Stage2Proofs.

Section Stage2Claims.

Variable within : atom -> atom -> bool.
Variable select_ok model_ok write_ok : string -> bool.

Local Abbreviation extract := (extract_aligned_sequence within select_ok model_ok).
Local Abbreviation process := (process_target within select_ok model_ok write_ok).
Local Abbreviation main2' := (main2 within select_ok model_ok write_ok).

Lemma for_each_process_prefix objs pre :
  (forall u, In u pre -> exists v, outcome (extract objs u) = Ok v) ->
  outcome (for_each (process objs) pre) = Ok tt.
Proof.
  intros H. apply for_each_ok. intros u Hu.
  rewrite process_target_outcome. destruct (H u Hu) as [v ->]. reflexivity.
Qed.

Lemma main2_split objs pre target post :
  target_objects objs = (pre ++ target :: post)%list ->
  (forall u, In u pre -> exists v, outcome (extract objs u) = Ok v) ->
  trace (main2' (Some objs)) =
    (EvLog INFO "start" :: EvOpenToolkit :: EvLog INFO "load session" ::
     EvLoad "alignment.pse" "session" ::
     trace (for_each (process objs) pre) ++
     trace (process objs target) ++
     match outcome (process objs target) with
     | Ok _ => trace (for_each (process objs) post)
     | Exc _ => []
     end ++ EvCloseToolkit ::
     match outcome (for_each (process objs) (pre ++ target :: post)) with
     | Ok _ => [EvLog INFO "end"]
     | Exc _ => []
     end)%list.
Proof.
  intros Et Hpre.
  destruct (main2_targets within select_ok model_ok write_ok objs) as [_ Htr];
    [rewrite Et; destruct pre; discriminate|].
  rewrite Htr, Et. f_equal; f_equal; f_equal.
  destruct (for_each_app (process objs) pre (target :: post)) as [_ H2];
    [apply for_each_process_prefix; exact Hpre|].
  rewrite H2. simpl. msimpl. rewrite <- !app_assoc. reflexivity.
Qed.

(** The stage 2 loop writes the FASTA file of a target it reaches whose
    extraction succeeds, unless opening the file fails. *)
Lemma main2_writes objs pre target post r t :
  target_objects objs = (pre ++ target :: post)%list ->
  (forall u, In u pre -> exists v, outcome (extract objs u) = Ok v) ->
  outcome (extract objs target) = Ok (Some (r, t)) ->
  write_ok (output_filename target) = true ->
  In (EvWrite (output_filename target) (fasta_output target r t))
    (trace (main2' (Some objs))).
Proof.
  intros Et Hpre He Hw. rewrite (main2_split objs pre target post Et Hpre).
  right; right; right; right. apply in_or_app; right. apply in_or_app; left.
  apply process_target_write; assumption.
Qed.

(** Both selections present and non-empty, one of them holding a numeric
    and a non-numeric [resi] in one chain: the extraction raises. *)
Lemma extract_mixed_raises objs target ref_all tgt_all :
  lookup_object objs "ref" = Some ref_all ->
  lookup_object objs target = Some tgt_all ->
  select_ok target = true -> model_ok target = true ->
  ca_within within ref_all tgt_all <> [] ->
  ca_within within tgt_all ref_all <> [] ->
  (exists sel a b,
     (sel = ca_within within ref_all tgt_all \/
      sel = ca_within within tgt_all ref_all) /\
     In a sel /\ In b sel /\ chain a = chain b /\
     py_int (resi a) <> None /\ py_int (resi b) = None) ->
  outcome (extract objs target) = Exc TypeError.
Proof.
  intros Er Et Hs Hm Hr Ht (sel & a & b & Hsel & Ha & Hb & Hc & Hia & Hib).
  unfold extract_aligned_sequence. msimpl. rewrite Er, Et, Hs, Hm. simpl.
  assert (Hsr := py_sorted_mixed (ca_within within ref_all tgt_all) a b).
  assert (Hst := py_sorted_mixed (ca_within within tgt_all ref_all) a b).
  destruct (ca_within within ref_all tgt_all) as [|x rm]; [contradiction|].
  destruct (ca_within within tgt_all ref_all) as [|y tm]; [contradiction|].
  destruct Hsel as [->| ->].
  - rewrite Hsr by assumption. reflexivity.
  - rewrite (Hst Ha Hb Hc Hia Hib).
    destruct (py_sorted sort_key (x :: rm)); reflexivity.
Qed.

End Stage2Claims.

Lemma target_objects_spec objs u :
  In u (target_objects objs) <->
  In u (map fst objs) /\ u <> "ref" /\ u <> "session".
Proof.
  unfold target_objects. rewrite filter_In.
  destruct (String.eqb_spec u "ref"), (String.eqb_spec u "session");
    simpl; intuition discriminate.
Qed.

Section Stage2Theorems.

Variable within : atom -> atom -> bool.
Variable select_ok model_ok write_ok : string -> bool.

Local Abbreviation extract := (extract_aligned_sequence within select_ok model_ok).
Local Abbreviation main2' := (main2 within select_ok model_ok write_ok).

(** C1 (amended): the targets of stage 2 are the session objects other than
    ["ref"] and ["session"]; for such a target reached by the loop (no
    earlier target's extraction raised) whose extraction succeeds, stage 2
    writes [{target}_seq_align.fasta] holding [">ref_aligned"] with the
    reference string and [">{target}_aligned"] with the target string;
    when opening that file fails it logs an error and nothing is written
    to the file; and every file it writes is of this form for such a
    target. *)
Theorem stage2_writes_target_fasta objs pre target post r t :
  target_objects objs = (pre ++ target :: post)%list ->
  (forall u, In u pre -> exists v, outcome (extract objs u) = Ok v) ->
  outcome (extract objs target) = Ok (Some (r, t)) ->
  (write_ok (output_filename target) = true ->
   In (EvWrite (output_filename target) (fasta_output target r t))
     (trace (main2' (Some objs)))) /\
  (write_ok (output_filename target) = false ->
   In (EvLog ERROR "write failed") (trace (main2' (Some objs))) /\
   forall content,
     ~ In (EvWrite (output_filename target) content) (trace (main2' (Some objs)))) /\
  (forall file content,
     In (EvWrite file content) (trace (main2' (Some objs))) ->
     exists u r' t',
       In u (map fst objs) /\ u <> "ref" /\ u <> "session" /\
       outcome (extract objs u) = Ok (Some (r', t')) /\
       file = output_filename u /\ content = fasta_output u r' t').
Proof.
  intros Et Hpre He. split; [|split].
  - intros Hw. exact (main2_writes within select_ok model_ok write_ok objs pre target post
      r t Et Hpre He Hw).
  - intros Hw. split.
    + rewrite (main2_split within select_ok model_ok write_ok objs pre target post Et Hpre).
      right; right; right; right. apply in_or_app; right. apply in_or_app; left.
      apply (process_target_write_failed within select_ok model_ok write_ok objs target r t); assumption.
    + intros content Hin. apply main2_write_ok in Hin. congruence.
  - intros file content H.
    apply main2_writes_inv in H as (objs' & u & r' & t' & Eo & Hu & H1 & H2 & H3).
    injection Eo as <-. apply target_objects_spec in Hu as (Hu1 & Hu2 & Hu3).
    exists u, r', t'. repeat split; assumption.
Qed.

(** C5 (amended): a successful extraction is the CA distance filter on both
    objects, a sort of each selection by [(chain, int(resi) or resi)] (a
    stable, ordered permutation), truncation of both sorted lists to the
    shorter length, and the lookup of each upper-cased residue name in the
    20-entry table with fallback ["X"]. *)
Theorem extract_pipeline objs target r t :
  outcome (extract objs target) = Ok (Some (r, t)) ->
  exists ref_all tgt_all ra ta,
    lookup_object objs "ref" = Some ref_all /\
    lookup_object objs target = Some tgt_all /\
    py_sorted sort_key (ca_within within ref_all tgt_all) = Some ra /\
    Permutation (ca_within within ref_all tgt_all) ra /\
    StronglySorted atom_le ra /\
    py_sorted sort_key (ca_within within tgt_all ref_all) = Some ta /\
    Permutation (ca_within within tgt_all ref_all) ta /\
    StronglySorted atom_le ta /\
    r = letters (firstn (Nat.min (length ra) (length ta)) ra) /\
    t = letters (firstn (Nat.min (length ra) (length ta)) ta).
Proof.
  intros H.
  destruct (extract_some within select_ok model_ok objs target r t H)
    as (ref_all & tgt_all & ra & ta & Er & Et & _ & _ & Hra & Hta & _ & Hr & Ht & _).
  exists ref_all, tgt_all, ra, ta.
  destruct (py_sorted_spec _ _ Hra) as [Sa Pa].
  destruct (py_sorted_spec _ _ Hta) as [Sb Pb].
  repeat split; assumption.
Qed.

(** C7: every FASTA file stage 2 writes holds two strings of the same
    length, the smaller of the two selection sizes; they are the letters of
    the first that many atoms of each sorted selection, and the mismatch
    warning is logged exactly when the sizes differ. *)
Theorem stage2_fasta_equal_lengths loaded file content :
  In (EvWrite file content) (trace (main2' loaded)) ->
  exists objs target ref_all tgt_all ra ta r t,
    loaded = Some objs /\ In target (target_objects objs) /\
    file = output_filename target /\ content = fasta_output target r t /\
    lookup_object objs "ref" = Some ref_all /\
    lookup_object objs target = Some tgt_all /\
    py_sorted sort_key (ca_within within ref_all tgt_all) = Some ra /\
    py_sorted sort_key (ca_within within tgt_all ref_all) = Some ta /\
    String.length r = Nat.min (length (ca_within within ref_all tgt_all))
                              (length (ca_within within tgt_all ref_all)) /\
    String.length t = String.length r /\
    r = letters (firstn (String.length r) ra) /\
    t = letters (firstn (String.length r) ta) /\
    (In mismatch_warning (trace (extract objs target)) <->
     length (ca_within within ref_all tgt_all) <>
     length (ca_within within tgt_all ref_all)).
Proof.
  intros H.
  apply main2_writes_inv in H as (objs & target & r & t & Eo & Hu & He & Hf & Hc).
  destruct (extract_some within select_ok model_ok objs target r t He)
    as (ref_all & tgt_all & ra & ta & Er & Et & _ & _ & Hra & Hta & _ & Hr & Ht & Hw).
  destruct (py_sorted_spec _ _ Hra) as [_ Pa].
  destruct (py_sorted_spec _ _ Hta) as [_ Pb].
  pose proof (Permutation_length Pa) as La. pose proof (Permutation_length Pb) as Lb.
  assert (Hlr : String.length r = Nat.min (length ra) (length ta)).
  { rewrite Hr, letters_length, length_firstn. lia. }
  assert (Hlt : String.length t = Nat.min (length ra) (length ta)).
  { rewrite Ht, letters_length, length_firstn. lia. }
  exists objs, target, ref_all, tgt_all, ra, ta, r, t.
  rewrite La, Lb in *.
  repeat split; try assumption; try congruence;
    try (rewrite Hlr; assumption); try apply Hw.
Qed.

End Stage2Theorems.

Lemma dict_get_absent {V} (d : list (string * V)) k default :
  ~ In k (map fst d) -> dict_get d k default = default.
Proof.
  induction d as [|[k' v] d IH]; simpl; intros H; [reflexivity|].
  destruct (String.eqb_spec k k') as [->|_]; [tauto|auto].
Qed.

Section Stage2Theorems2.

Variable within : atom -> atom -> bool.
Variable select_ok model_ok write_ok : string -> bool.

Local Abbreviation extract := (extract_aligned_sequence within select_ok model_ok).
Local Abbreviation process := (process_target within select_ok model_ok write_ok).
Local Abbreviation main2' := (main2 within select_ok model_ok write_ok).

Lemma extract_raises_only_typeerror objs target e :
  outcome (extract objs target) = Exc e -> e = TypeError.
Proof.
  unfold extract_aligned_sequence. msimpl.
  destruct (lookup_object objs "ref") as [l|], (lookup_object objs target) as [l0|];
    msimpl; try discriminate.
  destruct (select_ok target); msimpl; [|discriminate].
  destruct (model_ok target); msimpl; [|discriminate].
  destruct (ca_within within l l0) as [|a rm]; msimpl; [discriminate|].
  destruct (ca_within within l0 l) as [|b tm]; msimpl; [discriminate|].
  destruct (py_sorted sort_key (a :: rm)) as [ra|]; [|intros H; injection H; auto].
  destruct (py_sorted sort_key (b :: tm)) as [ta|]; [|intros H; injection H; auto].
  destruct (Nat.min (length ra) (length ta) =? 0)%nat; msimpl; [discriminate|].
  destruct (letters_loop _ ra ta "" "").
  destruct (length ra =? length ta)%nat; msimpl; discriminate.
Qed.

(** C6: the letter emitted for a residue is the table's letter of its
    upper-cased name when the name is one of the 20 keys, and ["X"]
    otherwise; the lookup is a total function, and the only exception an
    extraction can raise is the [TypeError] of the sort, never one of the
    lookup. *)
Theorem residue_letter_spec (a : atom) :
  (forall k v, In (k, v) THREE_TO_ONE -> py_upper (resn a) = k ->
     residue_letter a = v) /\
  (~ In (py_upper (resn a)) (map fst THREE_TO_ONE) -> residue_letter a = "X") /\
  (forall objs target e, outcome (extract objs target) = Exc e -> e = TypeError).
Proof.
  split; [|split].
  - intros k v Hin Hk. unfold residue_letter. rewrite Hk.
    simpl in Hin. repeat destruct Hin as [Hin|Hin];
      try (injection Hin as <- <-; reflexivity); contradiction.
  - intros Hn. apply dict_get_absent. exact Hn.
  - apply extract_raises_only_typeerror.
Qed.

Lemma extract_empty_none objs target ref_all tgt_all :
  lookup_object objs "ref" = Some ref_all ->
  lookup_object objs target = Some tgt_all ->
  ca_within within ref_all tgt_all = [] \/ ca_within within tgt_all ref_all = [] ->
  outcome (extract objs target) = Ok None.
Proof.
  intros Hr Ht He. unfold extract_aligned_sequence. rewrite Hr, Ht.
  msimpl. destruct (select_ok target); [|reflexivity].
  destruct (model_ok target); [|reflexivity]. simpl.
  destruct He as [-> | ->]; [reflexivity|].
  destruct (ca_within within ref_all tgt_all); reflexivity.
Qed.

(** C8 (amended): when the loop reaches a target whose two selections are
    both non-empty and one of them holds, in one chain, an atom whose [resi]
    parses as an [int] and one whose [resi] does not, the sort raises
    [TypeError]; it leaves [extract_aligned_sequence] and [main] uncaught,
    the toolkit session is closed and no later target is processed.  When
    one of the two selections is empty instead, [extract_aligned_sequence]
    returns [(None, None)] before any sort, whatever the other selection
    holds: the target is only logged as failed, nothing is written for it,
    and the loop goes on with the later targets. *)
Theorem stage2_mixed_resi_aborts objs pre target post ref_all tgt_all :
  target_objects objs = (pre ++ target :: post)%list ->
  (forall u, In u pre -> exists v, outcome (extract objs u) = Ok v) ->
  lookup_object objs "ref" = Some ref_all ->
  lookup_object objs target = Some tgt_all ->
  (select_ok target = true -> model_ok target = true ->
   ca_within within ref_all tgt_all <> [] ->
   ca_within within tgt_all ref_all <> [] ->
   (exists sel a b,
      (sel = ca_within within ref_all tgt_all \/
       sel = ca_within within tgt_all ref_all) /\
      In a sel /\ In b sel /\ chain a = chain b /\
      py_int (resi a) <> None /\ py_int (resi b) = None) ->
   outcome (extract objs target) = Exc TypeError /\
   outcome (main2' (Some objs)) = Exc TypeError /\
   trace (main2' (Some objs)) =
     (EvLog INFO "start" :: EvOpenToolkit :: EvLog INFO "load session" ::
      EvLoad "alignment.pse" "session" ::
      trace (for_each (process objs) pre) ++
      trace (process objs target) ++ [EvCloseToolkit])%list) /\
  (ca_within within ref_all tgt_all = [] \/ ca_within within tgt_all ref_all = [] ->
   outcome (extract objs target) = Ok None /\
   trace (process objs target) =
     (EvLog INFO "process target" :: trace (extract objs target) ++
      [EvLog ERROR "extraction failed"])%list /\
   outcome (main2' (Some objs)) = outcome (for_each (process objs) post) /\
   trace (main2' (Some objs)) =
     (EvLog INFO "start" :: EvOpenToolkit :: EvLog INFO "load session" ::
      EvLoad "alignment.pse" "session" ::
      trace (for_each (process objs) pre) ++
      trace (process objs target) ++
      trace (for_each (process objs) post) ++ EvCloseToolkit ::
      match outcome (for_each (process objs) post) with
      | Ok _ => [EvLog INFO "end"]
      | Exc _ => []
      end)%list).
Proof.
  intros Et Hpre Er Ett.
  assert (Hmain : outcome (main2' (Some objs)) =
                  outcome (for_each (process objs) (pre ++ target :: post))).
  { destruct (main2_targets within select_ok model_ok write_ok objs) as [H1 _];
      [rewrite Et; destruct pre; discriminate|].
    rewrite H1, Et. reflexivity. }
  destruct (for_each_app (process objs) pre (target :: post)) as [Hl1 _];
    [apply for_each_process_prefix; exact Hpre|].
  split.
  - intros Hs Hm Hr Ht Hmix.
    assert (He : outcome (extract objs target) = Exc TypeError)
      by (eapply extract_mixed_raises; eauto).
    assert (Hp : outcome (process objs target) = Exc TypeError)
      by (rewrite process_target_outcome, He; reflexivity).
    assert (Hl : outcome (for_each (process objs) (pre ++ target :: post)) =
                 Exc TypeError).
    { rewrite Hl1. simpl. msimpl. rewrite Hp. reflexivity. }
    split; [exact He|split].
    + rewrite Hmain. exact Hl.
    + rewrite (main2_split within select_ok model_ok write_ok objs pre target post
        Et Hpre), Hp, Hl. reflexivity.
  - intros Hempty.
    assert (He : outcome (extract objs target) = Ok None)
      by (eapply extract_empty_none; eauto).
    assert (Hp : outcome (process objs target) = Ok tt)
      by (rewrite process_target_outcome, He; reflexivity).
    assert (Hl : outcome (for_each (process objs) (pre ++ target :: post)) =
                 outcome (for_each (process objs) post)).
    { rewrite Hl1. simpl. msimpl. rewrite Hp. reflexivity. }
    split; [exact He|split; [|split]].
    + unfold process_target. msimpl. rewrite He. simpl.
      reflexivity.
    + rewrite Hmain. exact Hl.
    + rewrite (main2_split within select_ok model_ok write_ok objs pre target post
        Et Hpre), Hp, Hl. reflexivity.
Qed.

End Stage2Theorems2.

(** ** Concrete stage 2 inputs *)

Ltac pick_in := vm_compute; repeat (first [left; reflexivity | right]).

Lemma stage2_writes_target_fasta_witness :
  outcome (extract_aligned_sequence within_2A always_true always_true
             session_ok "t1") = Ok (Some ("AG", "SV")) /\
  In (EvWrite (output_filename "t1") (fasta_output "t1" "AG" "SV"))
    (trace (main2 within_2A always_true always_true always_true
              (Some session_ok))).
Proof.
  split; [vm_compute; reflexivity|].
  refine (proj1 (stage2_writes_target_fasta within_2A always_true always_true
    always_true session_ok [] "t1" ["t2"] "AG" "SV" _ _ _) eq_refl).
  - vm_compute. reflexivity.
  - intros u [].
  - vm_compute. reflexivity.
Defined.

(** Against C1: an object named ["session"] whose extraction would succeed
    is not a target, and no file is written for it. *)
Lemma stage2_session_object_not_written :
  outcome (extract_aligned_sequence within_2A always_true always_true
             session_with_session_object "session") = Ok (Some ("AG", "SV")) /\
  always_true (output_filename "session") = true /\
  ~ In (EvWrite (output_filename "session") (fasta_output "session" "AG" "SV"))
      (trace (main2 within_2A always_true always_true always_true
                (Some session_with_session_object))).
Proof.
  split; [vm_compute; reflexivity|split; [reflexivity|]].
  vm_compute. intros H. repeat destruct H as [H|H]; try discriminate; contradiction.
Qed.

Lemma extract_pipeline_witness :
  outcome (extract_aligned_sequence within_2A always_true always_true
             session_ok "t2") = Ok (Some ("A", "S")) /\
  exists ref_all tgt_all ra ta,
    lookup_object session_ok "ref" = Some ref_all /\
    lookup_object session_ok "t2" = Some tgt_all /\
    py_sorted sort_key (ca_within within_2A ref_all tgt_all) = Some ra /\
    Permutation (ca_within within_2A ref_all tgt_all) ra /\
    StronglySorted atom_le ra /\
    py_sorted sort_key (ca_within within_2A tgt_all ref_all) = Some ta /\
    Permutation (ca_within within_2A tgt_all ref_all) ta /\
    StronglySorted atom_le ta /\
    "A" = letters (firstn (Nat.min (length ra) (length ta)) ra) /\
    "S" = letters (firstn (Nat.min (length ra) (length ta)) ta).
Proof.
  split; [vm_compute; reflexivity|].
  apply (extract_pipeline within_2A always_true always_true session_ok "t2").
  vm_compute. reflexivity.
Defined.

(** Against C5: the two sorted selections have two and one atoms; the
    reference string is cut to one letter instead of being the letters
    of the whole sorted selection. *)
Lemma extract_truncates_longer_selection :
  exists ra,
    py_sorted sort_key (ca_within within_2A ref_atoms t2_atoms) = Some ra /\
    outcome (extract_aligned_sequence within_2A always_true always_true
               session_ok "t2") = Ok (Some ("A", "S")) /\
    "A" <> letters ra.
Proof.
  exists ref_atoms. split; [vm_compute; reflexivity|].
  split; [vm_compute; reflexivity|]. vm_compute. discriminate.
Qed.

Lemma stage2_fasta_equal_lengths_witness :
  In (EvWrite "t2_seq_align.fasta" (fasta_output "t2" "A" "S"))
    (trace (main2 within_2A always_true always_true always_true
              (Some session_ok))) /\
  exists objs target ref_all tgt_all ra ta r t,
    Some session_ok = Some objs /\ In target (target_objects objs) /\
    "t2_seq_align.fasta" = output_filename target /\
    fasta_output "t2" "A" "S" = fasta_output target r t /\
    lookup_object objs "ref" = Some ref_all /\
    lookup_object objs target = Some tgt_all /\
    py_sorted sort_key (ca_within within_2A ref_all tgt_all) = Some ra /\
    py_sorted sort_key (ca_within within_2A tgt_all ref_all) = Some ta /\
    String.length r = Nat.min (length (ca_within within_2A ref_all tgt_all))
                              (length (ca_within within_2A tgt_all ref_all)) /\
    String.length t = String.length r /\
    r = letters (firstn (String.length r) ra) /\
    t = letters (firstn (String.length r) ta) /\
    (In mismatch_warning
       (trace (extract_aligned_sequence within_2A always_true always_true
                 objs target)) <->
     length (ca_within within_2A ref_all tgt_all) <>
     length (ca_within within_2A tgt_all ref_all)).
Proof.
  assert (H : In (EvWrite "t2_seq_align.fasta" (fasta_output "t2" "A" "S"))
    (trace (main2 within_2A always_true always_true always_true
              (Some session_ok)))) by pick_in.
  split; [exact H|].
  exact (stage2_fasta_equal_lengths within_2A always_true always_true
    always_true (Some session_ok) _ _ H).
Defined.

Lemma stage2_mixed_resi_aborts_witness :
  (outcome (extract_aligned_sequence within_2A always_true always_true
              session_bad_first "bad") = Exc TypeError /\
   outcome (main2 within_2A always_true always_true always_true
              (Some session_bad_first)) = Exc TypeError) /\
  (outcome (extract_aligned_sequence within_2A always_true always_true
              session_far_ca "far") = Ok None /\
   outcome (main2 within_2A always_true always_true always_true
              (Some session_far_ca)) = Ok tt).
Proof.
  split.
  - destruct (proj1 (stage2_mixed_resi_aborts within_2A always_true always_true
      always_true session_bad_first [] "bad" ["t1"] ref_atoms bad_atoms
      ltac:(vm_compute; reflexivity) (fun u (H : In u []) => match H with end)
      ltac:(vm_compute; reflexivity) ltac:(vm_compute; reflexivity)))
      as (H1 & H2 & _).
    + reflexivity.
    + reflexivity.
    + vm_compute. discriminate.
    + vm_compute. discriminate.
    + exists (ca_within within_2A bad_atoms ref_atoms),
        (mkAtom "CA" "A" "1" "SER" (0, 0, 500)%Z),
        (mkAtom "CA" "A" "1A" "VAL" (3800, 0, 500)%Z).
      split; [right; reflexivity|].
      split; [pick_in|]. split; [pick_in|]. split; [reflexivity|].
      split; [vm_compute; discriminate|vm_compute; reflexivity].
    + split; assumption.
  - destruct (proj2 (stage2_mixed_resi_aborts within_2A always_true always_true
      always_true session_far_ca [] "far" [] ref_mixed_atoms far_ca_atoms
      ltac:(vm_compute; reflexivity) (fun u (H : In u []) => match H with end)
      ltac:(vm_compute; reflexivity) ltac:(vm_compute; reflexivity)))
      as (H1 & _ & H2 & _).
    + first [left; vm_compute; reflexivity | right; vm_compute; reflexivity].
    + split; [exact H1|]. rewrite H2. reflexivity.
Defined.

(** Atom names match ["CA"] ignoring case: a session whose CA atoms are
    named ["ca"] gives the same sequences as with ["CA"]. *)
Lemma extract_selects_lowercase_ca :
  let lower := map (fun a => mkAtom "ca" (chain a) (resi a) (resn a) (coord a)) in
  outcome (extract_aligned_sequence within_2A always_true always_true
             [("ref", lower ref_atoms); ("t1", lower t1_atoms)] "t1") =
  Ok (Some ("AG"%string, "SV"%string)).
Proof. vm_compute. reflexivity. Qed.

(** Against C8: a selection with mixed resi kinds in one chain, but an
    empty selection on the other side: no [TypeError], the run ends. *)
Lemma stage2_selection_empty_no_typeerror :
  In (mkAtom "CA" "A" "1" "ALA" (0, 0, 0)%Z)
     (ca_within within_2A ref_mixed_atoms far_ca_atoms) /\
  In (mkAtom "CA" "A" "1A" "GLY" (3800, 0, 0)%Z)
     (ca_within within_2A ref_mixed_atoms far_ca_atoms) /\
  py_int "1" <> None /\ py_int "1A" = None /\
  outcome (extract_aligned_sequence within_2A always_true always_true
             session_far_ca "far") = Ok None /\
  outcome (main2 within_2A always_true always_true always_true
             (Some session_far_ca)) = Ok tt.
Proof.
  split; [pick_in|]. split; [pick_in|].
  split; [vm_compute; discriminate|].
  repeat split; vm_compute; reflexivity.
Qed.

(** C4 (defect): in a session where the target ["bad"] comes before
    ["t1"], the extraction of ["t1"] alone succeeds, but the [TypeError]
    the sort raises on ["bad"] (resi ["1"] and ["1A"] in chain A) aborts
    [main], so [t1_seq_align.fasta] is never written. *)
Lemma stage2_one_bad_target_aborts_run :
  outcome (extract_aligned_sequence within_2A always_true always_true
             session_bad_first "t1") = Ok (Some ("AG", "SV")) /\
  outcome (main2 within_2A always_true always_true always_true
             (Some session_bad_first)) = Exc TypeError /\
  ~ In (EvWrite (output_filename "t1") (fasta_output "t1" "AG" "SV"))
      (trace (main2 within_2A always_true always_true always_true
                (Some session_bad_first))).
Proof.
  split; [vm_compute; reflexivity|]. split; [vm_compute; reflexivity|].
  vm_compute. intros H. repeat destruct H as [H|H]; try discriminate; contradiction.
Qed.

(** ** Stage 3: [parse_fasta] against the MSA writer *)

Lemma is_line_break_LF : is_line_break LF = true.
Proof. reflexivity. Qed.

Lemma not_break_not_CR c : is_line_break c = false -> Ascii.eqb c CR = false.
Proof.
  intros H. destruct (Ascii.eqb_spec c CR) as [->|]; [discriminate|reflexivity].
Qed.

Lemma no_line_break_cons c s :
  no_line_break (String c s) = true <->
  is_line_break c = false /\ no_line_break s = true.
Proof.
  unfold no_line_break. simpl. rewrite andb_true_iff, negb_true_iff. tauto.
Qed.

Lemma univ_newlines_app s rest :
  no_line_break s = true -> univ_newlines (s ++ rest) = s ++ univ_newlines rest.
Proof.
  induction s as [|c s IH]; intros H; [reflexivity|].
  apply no_line_break_cons in H as [Hc Hs].
  simpl. rewrite (not_break_not_CR _ Hc), IH by exact Hs. reflexivity.
Qed.

Lemma splitlines_from_app s rest cur :
  no_line_break s = true ->
  splitlines_from (s ++ String LF rest) cur = (cur ++ s) :: splitlines_from rest "".
Proof.
  revert cur. induction s as [|c s IH]; intros cur H; simpl.
  - rewrite string_app_nil_r. reflexivity.
  - apply no_line_break_cons in H as [Hc Hs]. rewrite Hc, IH by exact Hs.
    rewrite string_app_assoc. reflexivity.
Qed.

Lemma msa_text_cons k v es :
  msa_text ((k, v) :: es) =
  ((">" ++ k) ++ String LF (v ++ String LF (msa_text es))).
Proof. reflexivity. Qed.

Lemma gt_no_line_break k :
  no_line_break k = true -> no_line_break (">" ++ k) = true.
Proof. intros H. apply no_line_break_cons. split; [reflexivity|exact H]. Qed.

Lemma msa_text_read es :
  Forall entry_ok es -> univ_newlines (msa_text es) = msa_text es.
Proof.
  induction es as [|[k v] es IH]; intros Hf; [reflexivity|].
  inversion Hf as [|? ? He Hes]; subst; simpl in He; destruct He as (Hk & _ & Hv & _).
  rewrite msa_text_cons, univ_newlines_app by (apply gt_no_line_break; exact Hk).
  simpl (univ_newlines (String LF _)).
  rewrite univ_newlines_app by exact Hv. simpl (univ_newlines (String LF _)).
  rewrite IH by exact Hes. reflexivity.
Qed.

Lemma msa_text_lines es :
  Forall entry_ok es -> splitlines (msa_text es) = lines_of es.
Proof.
  unfold splitlines.
  induction es as [|[k v] es IH]; intros Hf; [reflexivity|].
  inversion Hf as [|? ? He Hes]; subst; simpl in He; destruct He as (Hk & _ & Hv & _).
  rewrite msa_text_cons, splitlines_from_app by (apply gt_no_line_break; exact Hk).
  rewrite splitlines_from_app by exact Hv. rewrite IH by exact Hes. reflexivity.
Qed.

Lemma parse_lines_entries es header seq_lines d :
  Forall entry_ok es ->
  parse_lines (lines_of es) header seq_lines d =
  fold_left set_entry es
    (match header with
     | Some h => dict_set h (String.concat "" seq_lines) d
     | None => d
     end).
Proof.
  revert header seq_lines d.
  induction es as [|[k v] es IH]; intros header seq_lines d Hf; [reflexivity|].
  inversion Hf as [|? ? He Hes]; subst; simpl in He; destruct He as (Hk & Hks & Hv & Hvs & Hvg).
  simpl. rewrite Hks, Hvg, Hvs. simpl. rewrite IH by exact Hes. reflexivity.
Qed.

Lemma dict_lookup_set {V} (d : dict V) k v k' :
  dict_lookup (dict_set k v d) k' =
  if String.eqb k' k then Some v else dict_lookup d k'.
Proof.
  induction d as [|[k0 v0] d IH]; simpl; [reflexivity|].
  destruct (String.eqb_spec k k0) as [<-|Hne]; simpl.
  - destruct (String.eqb k' k); reflexivity.
  - rewrite IH. destruct (String.eqb_spec k' k0), (String.eqb_spec k' k);
      subst; try contradiction; reflexivity.
Qed.

Lemma dict_set_keys {V} (d : dict V) k v :
  map fst (dict_set k v d) =
  if existsb (String.eqb k) (map fst d) then map fst d else (map fst d ++ [k])%list.
Proof.
  induction d as [|[k0 v0] d IH]; simpl; [reflexivity|].
  destruct (String.eqb_spec k k0) as [<-|Hne]; simpl; [reflexivity|].
  rewrite IH. destruct (existsb (String.eqb k) (map fst d)); reflexivity.
Qed.

Lemma dict_set_nodup {V} (d : dict V) k v :
  NoDup (map fst d) -> NoDup (map fst (dict_set k v d)).
Proof.
  intros H. rewrite dict_set_keys.
  destruct (existsb (String.eqb k) (map fst d)) eqn:E; [exact H|].
  apply NoDup_app; [exact H|repeat constructor; auto|].
  intros x Hx [<-|[]].
  assert (existsb (String.eqb k) (map fst d) = true) as Ht
    by (apply existsb_exists; exists k; split; [exact Hx|apply String.eqb_refl]).
  congruence.
Qed.

Lemma dict_set_absent {V} (d : dict V) k v :
  ~ In k (map fst d) -> dict_set k v d = (d ++ [(k, v)])%list.
Proof.
  induction d as [|[k0 v0] d IH]; simpl; intros H; [reflexivity|].
  destruct (String.eqb_spec k k0) as [<-|Hne]; [tauto|].
  rewrite IH by tauto. reflexivity.
Qed.

Lemma fold_set_entry_distinct es acc :
  NoDup (map fst (acc ++ es)) -> fold_left set_entry es acc = (acc ++ es)%list.
Proof.
  revert acc. induction es as [|[k v] es IH]; intros acc H; simpl.
  - rewrite app_nil_r. reflexivity.
  - rewrite dict_set_absent.
    + rewrite IH; rewrite <- app_assoc; [reflexivity|exact H].
    + rewrite map_app in H. apply NoDup_remove_2 in H.
      intros Hk. apply H. apply in_or_app. left. exact Hk.
Qed.

Lemma fold_set_entry_nodup es acc :
  NoDup (map fst acc) -> NoDup (map fst (fold_left set_entry es acc)).
Proof.
  revert acc. induction es as [|[k v] es IH]; intros acc H; simpl; [exact H|].
  apply IH, dict_set_nodup, H.
Qed.

Lemma fold_set_entry_lookup es acc k :
  dict_lookup (fold_left set_entry es acc) k =
  match last_value es k with Some x => Some x | None => dict_lookup acc k end.
Proof.
  revert acc. induction es as [|[k' v] es IH]; intros acc; simpl; [reflexivity|].
  rewrite IH, dict_lookup_set.
  destruct (last_value es k); [reflexivity|].
  destruct (String.eqb k k'); reflexivity.
Qed.

Section Stage3Proofs.

Variable read_file : string -> option string.

Lemma collect_quiet files : forall refs targets,
  (exists st, outcome (collect read_file files refs targets) = Ok st) /\
  Forall quiet (trace (collect read_file files refs targets)).
Proof.
  induction files as [|f files IH]; intros refs targets; simpl.
  - split; [eexists; reflexivity|constructor].
  - destruct (read_file f) as [text|];
      [destruct (negb _); [|destruct (filter _ _) as [|k [|k2 l]]]|];
      simpl;
      match goal with
      | |- context [collect read_file files ?r ?t] =>
          destruct (IH r t) as [[st Hst] Hq];
          destruct (collect read_file files r t) as [o tr]
      end;
      simpl in *; subst;
      (split; [eexists; reflexivity|repeat constructor; auto;
               eexists; (left; reflexivity) || (right; reflexivity)]).
Qed.

Lemma main3_trace files ok first rest targets :
  outcome (collect read_file files [] []) = Ok (first :: rest, targets) ->
  trace (main3 files read_file ok) =
  (EvLog INFO "start" :: trace (collect read_file files [] []) ++
   (if forallb (fun sq => String.eqb sq first) (first :: rest)
    then EvLog INFO "references consistent"
    else EvLog WARNING "references differ") ::
   (if ok then [EvWrite "aligned.msa.fasta" (msa_text (build_msa first targets));
                EvLog INFO "msa written"]
    else [EvLog ERROR "msa write failed"]) ++ [EvLog INFO "end"])%list.
Proof.
  intros H. destruct files as [|f fs]; [discriminate H|].
  unfold main3.
  remember (collect read_file (f :: fs) [] []) as c eqn:Ec.
  destruct c as [o tr]. simpl in H. subst o. simpl.
  destruct (String.eqb first first && forallb (fun sq => String.eqb sq first) rest);
    destruct ok; reflexivity.
Qed.

Lemma forallb_first_false first rest :
  forallb (fun sq => String.eqb sq first) (first :: rest) = false <->
  exists s, In s rest /\ s <> first.
Proof.
  simpl. rewrite String.eqb_refl. simpl. split.
  - intros H. induction rest as [|s rest IHr]; [discriminate|].
    simpl in H. destruct (String.eqb_spec s first) as [->|Hne].
    + destruct (IHr H) as [x [Hx Hxf]]. exists x. split; [right|]; assumption.
    + exists s. split; [left; reflexivity|exact Hne].
  - intros [s [Hs Hne]]. apply not_true_iff_false. intros Hall.
    rewrite forallb_forall in Hall. apply Hne. apply String.eqb_eq, Hall, Hs.
Qed.

End Stage3Proofs.

Lemma parse_lines_records lines header seq_lines d :
  parse_lines lines header seq_lines d =
  fold_left set_entry
    (fasta_records lines
       (match header with Some h => Some (h, seq_lines) | None => None end)) d.
Proof.
  revert header seq_lines d.
  induction lines as [|line lines IH]; intros header seq_lines d.
  - destruct header; reflexivity.
  - simpl. destruct (starts_with_gt line).
    + rewrite fold_left_app, IH. destruct header; reflexivity.
    + rewrite IH. destruct header; reflexivity.
Qed.

Lemma parse_fasta_records text :
  parse_fasta text = fold_left set_entry (file_records text) [].
Proof. apply parse_lines_records. Qed.

(** ** Stage 3 claims *)

(** C10: for entries whose headers and sequences hold no line boundary
    of [str.splitlines] and no leading or trailing whitespace, and whose
    sequences do not start with ['>'], parsing the text the MSA writer
    produces rebuilds the dictionary [d[k] = v] builds from the entries in
    order: the entries themselves when their headers are distinct, and in
    any case a dictionary with distinct headers that maps each header to
    the sequence of its last occurrence.  For any input file, whatever it
    holds, [parse_fasta] keeps one entry per header: the dictionary
    [d[h] = s] builds from the file's records in order, so a repeated
    header keeps the sequence of its last occurrence. *)
Theorem parse_fasta_msa_roundtrip (es : dict string) :
  Forall entry_ok es ->
  parse_fasta (msa_text es) = fold_left set_entry es [] /\
  (NoDup (map fst es) -> parse_fasta (msa_text es) = es) /\
  NoDup (map fst (parse_fasta (msa_text es))) /\
  (forall k, dict_lookup (parse_fasta (msa_text es)) k = last_value es k) /\
  (forall text,
     parse_fasta text = fold_left set_entry (file_records text) [] /\
     NoDup (map fst (parse_fasta text)) /\
     forall k, dict_lookup (parse_fasta text) k = last_value (file_records text) k).
Proof.
  intros Hf.
  assert (Hany : forall text,
     parse_fasta text = fold_left set_entry (file_records text) [] /\
     NoDup (map fst (parse_fasta text)) /\
     forall k, dict_lookup (parse_fasta text) k = last_value (file_records text) k).
  { intros text. rewrite parse_fasta_records. split; [reflexivity|split].
    - apply fold_set_entry_nodup. constructor.
    - intros k. rewrite fold_set_entry_lookup.
      destruct (last_value (file_records text) k); reflexivity. }
  assert (Hp : parse_fasta (msa_text es) = fold_left set_entry es []).
  { unfold parse_fasta. rewrite msa_text_read, msa_text_lines by exact Hf.
    apply parse_lines_entries, Hf. }
  rewrite Hp. split; [reflexivity|]. split; [|split; [|split]].
  - intros Hn. apply fold_set_entry_distinct. exact Hn.
  - apply fold_set_entry_nodup. constructor.
  - intros k. rewrite fold_set_entry_lookup.
    destruct (last_value es k); reflexivity.
  - exact Hany.
Qed.

Section Stage3Theorems.

Variable read_file : string -> option string.

(** C2: once the files yield reference sequences [first :: rest] and the
    targets [targets], stage 3 logs the warning "references differ"
    exactly when some reference differs from the first one, and whether
    or not it does, it writes [aligned.msa.fasta] with the MSA built from
    the first reference and all targets whenever the write goes through:
    the merge is not conditioned on the consistency check. *)
Theorem stage3_merge_ignores_consistency files ok first rest targets :
  outcome (collect read_file files [] []) = Ok (first :: rest, targets) ->
  (In (EvLog WARNING "references differ") (trace (main3 files read_file ok)) <->
   exists s, In s rest /\ s <> first) /\
  (ok = true ->
   In (EvWrite "aligned.msa.fasta" (msa_text (build_msa first targets)))
     (trace (main3 files read_file ok))).
Proof.
  intros H. rewrite (main3_trace read_file files ok first rest targets H).
  destruct (collect_quiet read_file files [] []) as [_ Hq].
  rewrite <- forallb_first_false. split.
  - split.
    + intros Hin.
      destruct (forallb (fun sq => String.eqb sq first) (first :: rest));
        [exfalso|reflexivity].
      destruct Hin as [Hin|Hin]; [congruence|].
      apply in_app_or in Hin. destruct Hin as [Hin|Hin].
      * rewrite Forall_forall in Hq. destruct (Hq _ Hin) as [m [Hm|Hm]];
          congruence.
      * destruct Hin as [Hin|Hin]; [congruence|].
        destruct ok; simpl in Hin; intuition congruence.
    + intros ->. simpl. right. apply in_or_app. right. left. reflexivity.
  - intros ->. simpl. right. apply in_or_app. right. right. left. reflexivity.
Qed.

End Stage3Theorems.

Lemma parse_fasta_msa_roundtrip_witness :
  Forall entry_ok msa_entries /\ parse_fasta (msa_text msa_entries) = msa_entries /\
  dict_lookup (parse_fasta (">a" ++ nl ++ "A" ++ nl ++ ">a" ++ nl ++ "C" ++ nl)) "a" =
  Some "C"%string.
Proof.
  assert (Hf : Forall entry_ok msa_entries)
    by (repeat constructor; vm_compute; reflexivity).
  split; [exact Hf|split].
  - apply (proj1 (proj2 (parse_fasta_msa_roundtrip msa_entries Hf))).
    vm_compute. repeat constructor; simpl; intuition discriminate.
  - destruct (proj2 (proj2 (proj2 (proj2 (parse_fasta_msa_roundtrip msa_entries Hf))))
      (">a" ++ nl ++ "A" ++ nl ++ ">a" ++ nl ++ "C" ++ nl)) as (_ & _ & Hk).
    rewrite Hk. vm_compute. reflexivity.
Defined.

(** A sequence with a leading blank comes back stripped. *)
Lemma parse_fasta_strips_sequence :
  parse_fasta (msa_text [("a", " A")]) = [("a", "A")] /\
  [("a", "A")] <> [("a", " A")].
Proof. split; [vm_compute; reflexivity|discriminate]. Qed.

(** Two files whose references differ: the warning is logged and the MSA
    is still written. *)
Lemma stage3_writes_despite_reference_mismatch :
  In (EvLog WARNING "references differ")
    (trace (main3 fixture_files read_fixture true)) /\
  In (EvWrite "aligned.msa.fasta" (msa_text [("ref", "AG"); ("a", "SV"); ("b", "SW")]))
    (trace (main3 fixture_files read_fixture true)).
Proof. split; pick_in. Qed.

Lemma stage3_merge_ignores_consistency_witness :
  outcome (collect read_fixture fixture_files [] []) =
    Ok (["AG"; "AC"], [("a", "SV"); ("b", "SW")]) /\
  ((In (EvLog WARNING "references differ")
      (trace (main3 fixture_files read_fixture true)) <->
    exists s, In s ["AC"] /\ s <> "AG") /\
   (true = true ->
    In (EvWrite "aligned.msa.fasta"
          (msa_text (build_msa "AG" [("a", "SV"); ("b", "SW")])))
      (trace (main3 fixture_files read_fixture true)))).
Proof.
  assert (H : outcome (collect read_fixture fixture_files [] []) =
              Ok (["AG"; "AC"], [("a", "SV"); ("b", "SW")]))
    by (vm_compute; reflexivity).
  split; [exact H|].
  exact (stage3_merge_ignores_consistency read_fixture fixture_files true
           "AG" ["AC"] [("a", "SV"); ("b", "SW")] H).
Defined.

(** ** Stage 1 *)

Lemma actions_app (a b : list event) :
  actions (a ++ b) = (actions a ++ actions b)%list.
Proof. apply filter_app. Qed.

Section Stage1Proofs.

Variable pdb_folder : string.
Variable ref_exists : bool.
Variable listing : list string.
Variable load_ok : string -> bool.
Variable cealign_ok : string -> bool.
Variable save_ok : bool.

Local Abbreviation align_one' := (align_one pdb_folder load_ok cealign_ok).

Lemma align_one_ok f :
  load_ok (pdb_path pdb_folder f) = true ->
  outcome (align_one' f) = Ok tt /\
  actions (trace (align_one' f)) = align_actions pdb_folder f.
Proof.
  intros H. unfold align_one, cmd_load. msimpl. rewrite H. simpl.
  destruct (cealign_ok (splitext_root f)); split; reflexivity.
Qed.

Lemma for_each_align_ok fs :
  (forall f, In f fs -> load_ok (pdb_path pdb_folder f) = true) ->
  outcome (for_each align_one' fs) = Ok tt /\
  actions (trace (for_each align_one' fs)) =
  concat (map (align_actions pdb_folder) fs).
Proof.
  induction fs as [|f fs IH]; intros H; [split; reflexivity|].
  destruct (align_one_ok f (H f (or_introl eq_refl))) as [Ho Ha].
  destruct IH as [Io Ia]; [intros; apply H; right; assumption|].
  simpl. rewrite trace_bind, outcome_bind, Ho, actions_app, Ha, Ia.
  split; [exact Io|reflexivity].
Qed.

End Stage1Proofs.

Section Stage1Theorems.

Variable pdb_folder : string.
Variable ref_exists : bool.
Variable listing : list string.
Variable load_ok : string -> bool.
Variable cealign_ok : string -> bool.
Variable save_ok : bool.

Local Abbreviation main1' := (main1 pdb_folder ref_exists listing load_ok cealign_ok save_ok).

(** C3: when [ref.pdb] exists, some other [.pdb] file is found and every
    load succeeds, the toolkit calls of stage 1 are, in order: open the
    session, load [ref.pdb] as ["ref"], for each other [.pdb] file (in
    [glob] order, names starting with ['.'] skipped) call [cmd.load] with
    its root name and run [cealign("ref", root)], save [alignment.pse], close
    the session; the run ends normally exactly when the save does.  When
    [ref.pdb] is missing or no other [.pdb] file is found, stage 1 logs
    the matching error and ends: no toolkit call is made and nothing is
    saved. *)
Theorem stage1_aligns_then_saves :
  (ref_exists = true -> other_pdb_files listing <> [] ->
   load_ok (pdb_path pdb_folder "ref.pdb") = true ->
   (forall f, In f (other_pdb_files listing) ->
      load_ok (pdb_path pdb_folder f) = true) ->
   actions (trace main1') =
     (EvOpenToolkit :: EvLoad (pdb_path pdb_folder "ref.pdb") "ref" ::
      concat (map (align_actions pdb_folder) (other_pdb_files listing)) ++
      [EvSave "alignment.pse"; EvCloseToolkit])%list /\
   outcome main1' = if save_ok then Ok tt else Exc CmdException) /\
  (ref_exists = false \/ other_pdb_files listing = [] ->
   trace main1' =
     [EvLog INFO "start";
      EvLog ERROR (if ref_exists then "no other pdb files" else "reference missing")] /\
   actions (trace main1') = [] /\ outcome main1' = Ok tt).
Proof.
  split.
  - intros Hr Hne Hrl Hl. unfold main1. rewrite Hr. simpl negb. cbv iota.
    destruct (other_pdb_files listing) as [|f fs] eqn:E; [contradiction|].
    destruct (for_each_align_ok pdb_folder load_ok cealign_ok (f :: fs) Hl)
      as [Fo Fa].
    remember (for_each (align_one pdb_folder load_ok cealign_ok) (f :: fs))
      as L eqn:EL.
    destruct L as [o tr]. simpl in Fo. subst o.
    unfold cmd_load, cmd_save. rewrite Hrl.
    destruct save_ok; simpl; unfold actions in *; simpl in *;
      rewrite ?filter_app; simpl; rewrite ?Fa;
      (split; [rewrite ?app_nil_r; repeat rewrite <- app_assoc; reflexivity
              |reflexivity]).
  - intros [Hr|He]; unfold main1.
    + rewrite Hr. repeat split; reflexivity.
    + rewrite He. destruct ref_exists; repeat split; reflexivity.
Qed.

End Stage1Theorems.

(** ** Toolkit sessions *)

Section Events.

Variable p : event -> bool.

Lemma ev_bind {A B} (m : M A) (k : A -> M B) :
  forallb p (trace m) = true -> (forall a, forallb p (trace (k a)) = true) ->
  forallb p (trace (bind m k)) = true.
Proof.
  intros Hm Hk. rewrite trace_bind, forallb_app, Hm.
  destruct (outcome m); [apply Hk|reflexivity].
Qed.

Lemma ev_for_each {X} (body : X -> M unit) xs :
  (forall x, forallb p (trace (body x)) = true) ->
  forallb p (trace (for_each body xs)) = true.
Proof.
  intros H. induction xs as [|x xs IH]; [reflexivity|].
  simpl. apply ev_bind; [apply H|intros; exact IH].
Qed.

Lemma ev_logs {A} (m : M A) :
  (forall e, In e (trace m) -> is_log e) ->
  (forall l s, p (EvLog l s) = true) -> forallb p (trace m) = true.
Proof.
  intros H Hp. apply forallb_forall. intros e He.
  destruct (H e He) as [l [s ->]]. apply Hp.
Qed.

End Events.

Ltac ev_tac :=
  repeat first
    [ reflexivity
    | apply ev_bind; intros
    | apply ev_for_each; intros
    | match goal with
      | |- context [if ?b then _ else _] => destruct b
      | |- context [match ?x with _ => _ end] => destruct x
      end ].

Lemma main1_free pdb_folder listing load_ok cealign_ok save_ok :
  forallb toolkit_free
    (trace (for_each (align_one pdb_folder load_ok cealign_ok) listing ;;;
            emit (EvLog INFO "save session") ;;;
            cmd_save save_ok "alignment.pse")) = true.
Proof.
  apply ev_bind; [|intros; unfold cmd_save; ev_tac].
  apply ev_for_each. intros f. unfold align_one, cmd_load. ev_tac.
Qed.

Lemma extract_toolkit_free within select_ok model_ok objs target :
  forallb toolkit_free
    (trace (extract_aligned_sequence within select_ok model_ok objs target)) = true.
Proof.
  apply ev_logs; [|reflexivity].
  intros e. apply (extract_only_logs within select_ok model_ok).
Qed.

Lemma main2_body_free within select_ok model_ok write_ok loaded :
  forallb toolkit_free
    (trace (emit (EvLog INFO "load session") ;;;
            emit (EvLoad "alignment.pse" "session") ;;;
            match loaded with
            | None => emit (EvLog ERROR "session load failed") ;;; ret false
            | Some objs =>
              match target_objects objs with
              | [] => emit (EvLog ERROR "no target objects") ;;; ret false
              | targets =>
                  for_each (process_target within select_ok model_ok write_ok objs)
                    targets ;;; ret true
              end
            end)) = true.
Proof.
  apply ev_bind; [reflexivity|intros _].
  apply ev_bind; [reflexivity|intros _].
  destruct loaded as [objs|]; [|reflexivity].
  destruct (target_objects objs) as [|t ts]; [reflexivity|].
  apply ev_bind; [|reflexivity].
  apply ev_for_each. intros target. unfold process_target.
  apply ev_bind; [reflexivity|intros _].
  apply ev_bind; [apply extract_toolkit_free|intros o]. ev_tac.
Qed.

Lemma forallb_filter {X} (p q : X -> bool) l :
  forallb p l = true -> forallb p (filter q l) = true.
Proof.
  induction l as [|x l IH]; simpl; [reflexivity|].
  rewrite andb_true_iff. intros [Hx Hl]. destruct (q x); simpl; rewrite ?Hx; auto.
Qed.

Lemma actions_logs l : forallb is_logb l = true -> actions l = [].
Proof.
  induction l as [|e l IH]; simpl; [reflexivity|].
  rewrite andb_true_iff. intros [He Hl]. unfold actions in *. simpl.
  rewrite He. apply IH, Hl.
Qed.

(** A run that logs, then works inside one toolkit session, then logs. *)
Lemma session_shape {A B} (e0 : event) (b : M A) (k : A -> M B) :
  is_logb e0 = true -> forallb toolkit_free (trace b) = true ->
  (forall a, forallb is_logb (trace (k a)) = true) ->
  exists mid,
    actions (trace (emit e0 ;;; (x <- with_toolkit b ;; k x))) =
      (EvOpenToolkit :: mid ++ [EvCloseToolkit])%list /\
    forallb toolkit_free mid = true.
Proof.
  intros He Hb Hk. exists (actions (trace b)).
  split; [|apply forallb_filter, Hb].
  rewrite trace_bind. simpl outcome. cbv iota beta.
  rewrite trace_bind, outcome_with_toolkit, trace_with_toolkit.
  rewrite actions_app. simpl trace. unfold actions at 1. simpl. rewrite He.
  simpl. rewrite !actions_app. simpl. rewrite <- app_assoc. simpl.
  destruct (outcome b) as [a|e]; [rewrite (actions_logs _ (Hk a))|];
    reflexivity.
Qed.

Lemma main3_log_or_write files read_file ok :
  forallb log_or_write (trace (main3 files read_file ok)) = true.
Proof.
  unfold main3. apply ev_bind; [reflexivity|intros _].
  destruct files as [|f fs]; [reflexivity|].
  apply ev_bind.
  - destruct (collect_quiet read_file (f :: fs) [] []) as [_ Hq].
    apply forallb_forall. intros e He. rewrite Forall_forall in Hq.
    destruct (Hq e He) as [m [->| ->]]; reflexivity.
  - intros [refs targets]. ev_tac.
Qed.

(** C9: stage 1 opens a toolkit session exactly when [ref.pdb] exists and
    another [.pdb] file is found, and then every toolkit call lies in that
    one session, opened first and closed last; stage 2 always works in
    one such session; stage 3 never opens one: it only logs and writes
    files. *)
Theorem toolkit_sessions :
  (forall pdb_folder ref_exists listing load_ok cealign_ok save_ok,
     let tr := actions (trace (main1 pdb_folder ref_exists listing
                                 load_ok cealign_ok save_ok)) in
     (tr = [] <-> ref_exists = false \/ other_pdb_files listing = []) /\
     (tr <> [] -> exists mid,
        tr = (EvOpenToolkit :: mid ++ [EvCloseToolkit])%list /\
        forallb toolkit_free mid = true)) /\
  (forall within select_ok model_ok write_ok loaded,
     exists mid,
       actions (trace (main2 within select_ok model_ok write_ok loaded)) =
         (EvOpenToolkit :: mid ++ [EvCloseToolkit])%list /\
       forallb toolkit_free mid = true) /\
  (forall files read_file ok,
     forallb log_or_write (trace (main3 files read_file ok)) = true).
Proof.
  split; [|split].
  - intros pdb_folder ref_exists listing load_ok cealign_ok save_ok tr.
    assert (Hs : ref_exists = true -> other_pdb_files listing <> [] ->
                 exists mid, tr = (EvOpenToolkit :: mid ++ [EvCloseToolkit])%list /\
                             forallb toolkit_free mid = true).
    { intros Hr Hne. subst tr. unfold main1. rewrite Hr. simpl negb. cbv iota.
      destruct (other_pdb_files listing) as [|f fs]; [contradiction|].
      apply session_shape; [reflexivity| |intros; reflexivity].
      apply ev_bind; [reflexivity|intros _].
      apply ev_bind; [unfold cmd_load; ev_tac|intros _].
      apply main1_free. }
    split.
    + split.
      * intros Ht. destruct ref_exists; [|left; reflexivity].
        destruct (other_pdb_files listing) eqn:E; [right; reflexivity|].
        destruct Hs as [mid [Hm _]]; [reflexivity|congruence|]. congruence.
      * intros [Hr|He]; subst tr; unfold main1; [rewrite Hr; reflexivity|].
        rewrite He. destruct ref_exists; reflexivity.
    + intros Hne. apply Hs.
      * destruct ref_exists; [reflexivity|]. exfalso. apply Hne.
        subst tr. reflexivity.
      * intros He. apply Hne. subst tr. unfold main1. rewrite He.
        destruct ref_exists; reflexivity.
  - intros within select_ok model_ok write_ok loaded. unfold main2.
    apply session_shape; [reflexivity| |intros []; reflexivity].
    apply main2_body_free.
  - apply main3_log_or_write.
Qed.

Lemma stage1_aligns_then_saves_witness :
  actions (trace (main1 "/w/pdbs" true pdb_listing (fun _ => true) (fun _ => true) true)) =
  [EvOpenToolkit; EvLoad "/w/pdbs/ref.pdb" "ref"; EvLoad "/w/pdbs/a.pdb" "a";
   EvCeAlign "ref" "a"; EvSave "alignment.pse"; EvCloseToolkit].
Proof.
  destruct (proj1 (stage1_aligns_then_saves "/w/pdbs" true pdb_listing
                     (fun _ => true) (fun _ => true) true)
              eq_refl ltac:(vm_compute; discriminate) eq_refl
              (fun _ _ => eq_refl)) as [H _].
  rewrite H. vm_compute. reflexivity.
Defined.

(** Only [ref.pdb] in the folder: the run stops before any toolkit call
    and no session file is saved. *)
Lemma stage1_no_session_without_targets :
  trace (main1 "/w/pdbs" true ["ref.pdb"] (fun _ => true) (fun _ => true) true) =
  [EvLog INFO "start"; EvLog ERROR "no other pdb files"].
Proof. vm_compute. reflexivity. Qed.

(** Stage 3 writes the MSA without ever opening a toolkit session. *)
Lemma stage3_opens_no_toolkit :
  In (EvWrite "aligned.msa.fasta" (msa_text [("ref", "AG"); ("a", "SV"); ("b", "SW")]))
    (trace (main3 fixture_files read_fixture true)) /\
  ~ In EvOpenToolkit (trace (main3 fixture_files read_fixture true)).
Proof. split; [pick_in|vm_compute; intuition discriminate]. Qed.


(** * Further properties of the three scripts *)

(** ** Strings as lists of characters *)

Lemma list_ascii_of_string_app (a b : string) :
  list_ascii_of_string (a ++ b) = (list_ascii_of_string a ++ list_ascii_of_string b)%list.
Proof. induction a as [|c a IH]; simpl; [reflexivity|rewrite IH; reflexivity]. Qed.

Lemma string_of_list_ascii_app (a b : list ascii) :
  string_of_list_ascii (a ++ b) = (string_of_list_ascii a ++ string_of_list_ascii b).
Proof. induction a as [|c a IH]; simpl; [reflexivity|rewrite IH; reflexivity]. Qed.

Lemma rev_string_involutive s : rev_string (rev_string s) = s.
Proof.
  unfold rev_string. rewrite list_ascii_of_string_of_list_ascii, rev_involutive.
  apply string_of_list_ascii_of_string.
Qed.

Lemma rev_string_app a b : rev_string (a ++ b) = rev_string b ++ rev_string a.
Proof.
  unfold rev_string. rewrite list_ascii_of_string_app, rev_app_distr.
  apply string_of_list_ascii_app.
Qed.

Lemma existsb_rev {X} (f : X -> bool) l : existsb f (rev l) = existsb f l.
Proof.
  apply eq_true_iff_eq. rewrite !existsb_exists. split; intros [x [Hx Hf]];
    exists x; (split; [|exact Hf]).
  - apply in_rev. exact Hx.
  - apply in_rev. rewrite rev_involutive. exact Hx.
Qed.

(** ** Stage 1 *)

Lemma splitext_pdb_eq s :
  splitext_root (s ++ ".pdb") =
  if existsb (fun c => negb (Ascii.eqb c ".")) (list_ascii_of_string s)
  then s else s ++ ".pdb".
Proof.
  unfold splitext_root. rewrite list_ascii_of_string_app, rev_app_distr.
  simpl. rewrite existsb_rev.
  destruct (existsb _ (list_ascii_of_string s)); [|reflexivity].
  rewrite rev_involutive. apply string_of_list_ascii_of_string.
Qed.

(** X1: [os.path.splitext(name)[0]] on a name ending in [.pdb] drops the
    extension exactly when the part before it holds a character other
    than ['.']; otherwise (e.g. [..pdb]) the name is kept whole. *)
Theorem splitext_root_pdb s :
  splitext_root (s ++ ".pdb") =
  if existsb (fun c => negb (Ascii.eqb c ".")) (list_ascii_of_string s)
  then s else s ++ ".pdb".
Proof. apply splitext_pdb_eq. Qed.

Lemma align_one_outcome pdb_folder load_ok cealign_ok f :
  outcome (align_one pdb_folder load_ok cealign_ok f) =
  if load_ok (pdb_path pdb_folder f) then Ok tt else Exc CmdException.
Proof.
  unfold align_one, cmd_load. msimpl.
  destruct (load_ok (pdb_path pdb_folder f)); simpl; [|reflexivity].
  destruct (cealign_ok (splitext_root f)); reflexivity.
Qed.

Lemma for_each_align_fails pdb_folder load_ok cealign_ok fs :
  (exists f, In f fs /\ load_ok (pdb_path pdb_folder f) = false) ->
  outcome (for_each (align_one pdb_folder load_ok cealign_ok) fs) = Exc CmdException.
Proof.
  induction fs as [|x xs IH]; intros [f [Hf Hl]]; [destruct Hf|].
  simpl. rewrite outcome_bind, align_one_outcome.
  destruct Hf as [<-|Hf]; [rewrite Hl; reflexivity|].
  destruct (load_ok (pdb_path pdb_folder x)); [|reflexivity].
  apply IH. exists f. split; assumption.
Qed.

Lemma for_each_align_no_save pdb_folder load_ok cealign_ok fs :
  forallb not_save_end (trace (for_each (align_one pdb_folder load_ok cealign_ok) fs)) = true.
Proof.
  apply ev_for_each. intros f. unfold align_one, cmd_load. ev_tac.
Qed.

(** X3: when [ref.pdb] exists and other [.pdb] files are found but loading
    the reference or one of them fails, [cmd.load] raises out of [main]:
    the run aborts with that exception, no session file is saved and the
    closing log line is not written. *)
Theorem stage1_load_failure_aborts pdb_folder listing load_ok cealign_ok save_ok :
  other_pdb_files listing <> [] ->
  (load_ok (pdb_path pdb_folder "ref.pdb") = false \/
   exists f, In f (other_pdb_files listing) /\ load_ok (pdb_path pdb_folder f) = false) ->
  outcome (main1 pdb_folder true listing load_ok cealign_ok save_ok) = Exc CmdException /\
  ~ In (EvSave "alignment.pse") (trace (main1 pdb_folder true listing load_ok cealign_ok save_ok)) /\
  ~ In (EvLog INFO "end") (trace (main1 pdb_folder true listing load_ok cealign_ok save_ok)).
Proof.
  intros Hne Hfail. unfold main1. simpl negb. cbv iota.
  destruct (other_pdb_files listing) as [|f fs] eqn:E; [contradiction|].
  pose proof (for_each_align_no_save pdb_folder load_ok cealign_ok (f :: fs)) as Hs.
  assert (Hl : load_ok (pdb_path pdb_folder "ref.pdb") = true ->
               outcome (for_each (align_one pdb_folder load_ok cealign_ok) (f :: fs))
               = Exc CmdException).
  { intros Hr. apply for_each_align_fails. destruct Hfail as [H|H]; [congruence|exact H]. }
  remember (for_each (align_one pdb_folder load_ok cealign_ok) (f :: fs)) as L eqn:EL.
  destruct L as [o tr]. simpl in Hs, Hl. unfold cmd_load, cmd_save.
  destruct (load_ok (pdb_path pdb_folder "ref.pdb")) eqn:Hr.
  - rewrite (Hl eq_refl). simpl. rewrite forallb_forall in Hs.
    split; [reflexivity|].
    split; intros Hin; repeat (destruct Hin as [Hin|Hin]; [discriminate|]);
      apply in_app_or in Hin; destruct Hin as [Hin|[Hin|[]]];
      try discriminate; apply Hs in Hin; discriminate.
  - simpl. repeat split; intros Hin; simpl in Hin; intuition discriminate.
Qed.

(** ** Stage 2 *)

(** X4: when a target's CA selection or the reference's CA selection near
    it is empty, [extract_aligned_sequence] returns [(None, None)] before
    any sort, whatever the residue numbers of the other selection. *)
Theorem extract_empty_selection within select_ok model_ok objs target ref_all tgt_all :
  lookup_object objs "ref" = Some ref_all ->
  lookup_object objs target = Some tgt_all ->
  ca_within within ref_all tgt_all = [] \/ ca_within within tgt_all ref_all = [] ->
  outcome (extract_aligned_sequence within select_ok model_ok objs target) = Ok None.
Proof.
  intros Hr Ht He. unfold extract_aligned_sequence. rewrite Hr, Ht.
  msimpl. destruct (select_ok target); [|reflexivity].
  destruct (model_ok target); [|reflexivity]. simpl.
  destruct He as [-> | ->]; [reflexivity|].
  destruct (ca_within within ref_all tgt_all); reflexivity.
Qed.

Lemma key_lt_asym k1 k2 : key_lt k1 k2 = Some true -> key_lt k2 k1 = Some false.
Proof.
  destruct k1 as [c1 r1], k2 as [c2 r2]. unfold key_lt.
  rewrite (String.eqb_sym c2 c1).
  destruct (String.eqb_spec c1 c2) as [<-|Hne].
  - destruct r1 as [a|a], r2 as [b|b]; simpl; try discriminate.
    + rewrite (Z.eqb_sym b a). destruct (Z.eqb_spec a b); [discriminate|].
      intros H. injection H as H. apply Z.ltb_lt in H.
      f_equal. apply Z.ltb_ge. lia.
    + rewrite (String.eqb_sym b a). destruct (String.eqb_spec a b); [discriminate|].
      unfold String.ltb. rewrite (String.compare_antisym b a).
      intros H. injection H as H.
      destruct (String.compare a b); simpl; congruence.
  - unfold String.ltb. rewrite (String.compare_antisym c2 c1).
    intros H. injection H as H.
    destruct (String.compare c1 c2); simpl; congruence.
Qed.

(** X5: when [sorted(..., key=sort_key)] returns, its result is a
    reordering of the selection in which no atom's key is smaller than
    the key of the atom before it. *)
Theorem py_sorted_sorted l s :
  py_sorted sort_key l = Some s ->
  Permutation l s /\
  Sorted (fun a b => key_lt (sort_key b) (sort_key a) = Some false) s.
Proof.
  unfold py_sorted. intros H.
  apply (sort_acc_spec _ (fun a b => key_lt (sort_key b) (sort_key a) = Some false))
    in H as [Hs Hp];
    [split; assumption
    | intros x y Hxy; apply key_lt_asym; exact Hxy
    | intros x y Hxy; exact Hxy
    | constructor].
Qed.

Section SortTotal.

Context {A : Type} (lt : A -> A -> option bool).

Lemma insert_by_some x l :
  (forall y, In y l -> lt x y <> None) -> exists l', insert_by lt x l = Some l'.
Proof.
  induction l as [|y l IH]; intros H; simpl; [eexists; reflexivity|].
  destruct (lt x y) as [[]|] eqn:E.
  - eexists; reflexivity.
  - destruct IH as [l' ->]; [intros; apply H; right; assumption|].
    eexists; reflexivity.
  - exfalso. apply (H y); [left; reflexivity|exact E].
Qed.

Lemma sort_acc_some acc l :
  (forall x y, In x (acc ++ l) -> In y (acc ++ l) -> lt x y <> None) ->
  exists s, sort_acc lt acc l = Some s.
Proof.
  revert acc. induction l as [|x l IH]; intros acc H; simpl; [eexists; reflexivity|].
  destruct (insert_by_some x acc) as [acc' E].
  { intros y Hy. apply H; apply in_or_app; [right; left; reflexivity|left; exact Hy]. }
  rewrite E. apply IH. intros a b Ha Hb.
  assert (Hin : forall z, In z (acc' ++ l) -> In z (acc ++ x :: l)).
  { intros z Hz. apply in_app_or in Hz as [Hz|Hz].
    - apply (Permutation_in _ (Permutation_sym (insert_by_perm lt x acc acc' E))) in Hz.
      destruct Hz as [<-|Hz]; apply in_or_app; [right; left; reflexivity|left; exact Hz].
    - apply in_or_app. right. right. exact Hz. }
  apply H; apply Hin; assumption.
Qed.

End SortTotal.

(** X6: the sort of a selection never raises when, in each chain, the
    residue numbers all parse as integers or all fail to. *)
Theorem py_sorted_total l :
  (forall a b, In a l -> In b l -> chain a = chain b ->
     (py_int (resi a) = None <-> py_int (resi b) = None)) ->
  exists s, py_sorted sort_key l = Some s.
Proof.
  intros H. apply sort_acc_some. simpl. intros a b Ha Hb.
  specialize (H a b Ha Hb). unfold sort_key, key_lt.
  destruct (String.eqb_spec (chain a) (chain b)) as [E|]; [|discriminate].
  specialize (H E).
  destruct (py_int (resi a)), (py_int (resi b)); simpl;
    try (destruct (Z.eqb _ _)); try (destruct (String.eqb _ _)); try discriminate;
    exfalso; intuition discriminate.
Qed.

Lemma dict_get_cases {V} (d : list (string * V)) k default :
  dict_get d k default = default \/ In (dict_get d k default) (map snd d).
Proof.
  induction d as [|[k' v] d IH]; simpl; [left; reflexivity|].
  destruct (String.eqb k k'); [right; left; reflexivity|].
  destruct IH as [H|H]; [left|right; right]; assumption.
Qed.

Lemma residue_letter_alphabet a : over_alphabet (residue_letter a) = true.
Proof.
  unfold residue_letter.
  destruct (dict_get_cases THREE_TO_ONE (py_upper (resn a)) "X") as [->|H];
    [reflexivity|].
  generalize dependent (dict_get THREE_TO_ONE (py_upper (resn a)) "X").
  intros x H. simpl in H. repeat (destruct H as [<-|H]; [reflexivity|]). destruct H.
Qed.

Lemma over_alphabet_app a b :
  over_alphabet (a ++ b) = over_alphabet a && over_alphabet b.
Proof. unfold over_alphabet. rewrite list_ascii_of_string_app. apply forallb_app. Qed.

Lemma letters_alphabet l : over_alphabet (letters l) = true.
Proof.
  induction l as [|a l IH]; [reflexivity|]. simpl.
  rewrite over_alphabet_app, residue_letter_alphabet, IH. reflexivity.
Qed.

(** X7: every sequence stage 2 writes uses only the twenty one-letter
    codes of [THREE_TO_ONE] and the marker ['X']. *)
Theorem stage2_output_alphabet within select_ok model_ok write_ok loaded file content :
  In (EvWrite file content) (trace (main2 within select_ok model_ok write_ok loaded)) ->
  exists target r t,
    content = fasta_output target r t /\
    over_alphabet r = true /\ over_alphabet t = true.
Proof.
  intros H.
  destruct (main2_writes_inv within select_ok model_ok write_ok loaded file content H)
    as (objs & target & r & t & _ & _ & He & _ & Hc).
  destruct (extract_some within select_ok model_ok objs target r t He)
    as (ra & ta & ? & ? & _ & _ & _ & _ & _ & _ & _ & Hr & Ht & _).
  exists target, r, t. subst r t. split; [exact Hc|].
  split; apply letters_alphabet.
Qed.

(** X8: when the session fails to load or holds no object other than
    ["ref"] and ["session"], stage 2 returns early: it writes no file,
    does not log its closing line, and ends without an exception. *)
Theorem stage2_no_targets within select_ok model_ok write_ok loaded :
  (forall objs, loaded = Some objs -> target_objects objs = []) ->
  outcome (main2 within select_ok model_ok write_ok loaded) = Ok tt /\
  (forall file content,
     ~ In (EvWrite file content) (trace (main2 within select_ok model_ok write_ok loaded))) /\
  ~ In (EvLog INFO "end") (trace (main2 within select_ok model_ok write_ok loaded)).
Proof.
  intros H. unfold main2.
  destruct loaded as [objs|].
  - rewrite (H objs eq_refl). simpl.
    repeat split; intros; simpl; intuition discriminate.
  - simpl. repeat split; intros; simpl; intuition discriminate.
Qed.

(** ** Stage 3 *)

Lemma univ_newlines_chars n s c :
  String.length s <= n ->
  In c (list_ascii_of_string (univ_newlines s)) ->
  In c (list_ascii_of_string s) \/ c = LF.
Proof.
  revert s. induction n as [|n IH]; intros s Hl Hc.
  - destruct s; [destruct Hc|simpl in Hl; lia].
  - destruct s as [|c0 s]; [destruct Hc|]. simpl in Hl, Hc |- *.
    destruct (Ascii.eqb c0 CR).
    + destruct s as [|c2 s]; simpl in Hc.
      * destruct Hc as [<-|[]]. right. reflexivity.
      * destruct (Ascii.eqb c2 LF); simpl in Hc.
        -- destruct Hc as [<-|Hc]; [right; reflexivity|].
           simpl in Hl. destruct (IH s ltac:(lia) Hc) as [H|H]; [left; right; right; exact H|right; exact H].
        -- destruct Hc as [<-|Hc]; [right; reflexivity|].
           destruct (IH (String c2 s) ltac:(lia) Hc) as [H|H]; [left; right; exact H|right; exact H].
    + destruct Hc as [<-|Hc]; [left; left; reflexivity|].
      destruct (IH s ltac:(lia) Hc) as [H|H]; [left; right; exact H|right; exact H].
Qed.

Lemma splitlines_from_chars s cur l c :
  In l (splitlines_from s cur) -> In c (list_ascii_of_string l) ->
  In c (list_ascii_of_string cur) \/ In c (list_ascii_of_string s).
Proof.
  revert cur. induction s as [|c0 s IH]; intros cur Hl Hc; simpl in Hl.
  - destruct (String.eqb cur ""); [destruct Hl|]. destruct Hl as [<-|[]]. left. exact Hc.
  - destruct (is_line_break c0).
    + destruct Hl as [<-|Hl]; [left; exact Hc|].
      destruct (IH "" Hl Hc) as [[]|H]. right. right. exact H.
    + destruct (IH _ Hl Hc) as [H|H]; [|right; right; exact H].
      rewrite list_ascii_of_string_app in H. apply in_app_or in H as [H|[<-|[]]].
      * left. exact H.
      * right. left. reflexivity.
Qed.

Lemma parse_lines_no_header lines seq_lines d :
  (forall l, In l lines -> starts_with_gt l = false) ->
  parse_lines lines None seq_lines d = d.
Proof.
  revert seq_lines. induction lines as [|l lines IH]; intros seq_lines H; [reflexivity|].
  simpl. rewrite (H l (or_introl eq_refl)). apply IH. intros; apply H; right; assumption.
Qed.

(** X10: a file without any ['>'] character parses to the empty
    dictionary: lines before the first header are dropped. *)
Theorem parse_fasta_no_header text :
  forallb (fun c => negb (Ascii.eqb c ">")) (list_ascii_of_string text) = true ->
  parse_fasta text = [].
Proof.
  intros H. apply parse_lines_no_header. intros l Hl.
  destruct l as [|c l]; [reflexivity|]. simpl.
  destruct (Ascii.eqb_spec c ">") as [->|]; [|reflexivity]. exfalso.
  destruct (splitlines_from_chars _ _ _ ">" Hl (or_introl eq_refl)) as [[]|Hc].
  destruct (univ_newlines_chars _ text ">" (le_n _) Hc) as [Hc'|Hc'];
    [|discriminate].
  rewrite forallb_forall in H. specialize (H _ Hc'). discriminate.
Qed.

Lemma univ_newlines_no_cr s :
  forallb (fun c => negb (Ascii.eqb c CR)) (list_ascii_of_string s) = true ->
  univ_newlines s = s /\ univ_newlines (to_crlf s) = s.
Proof.
  induction s as [|c s IH]; [split; reflexivity|]. simpl.
  rewrite andb_true_iff, negb_true_iff. intros [Hc Hs].
  destruct (IH Hs) as [H1 H2]. rewrite Hc, H1. split; [reflexivity|].
  destruct (Ascii.eqb_spec c LF) as [->|Hne]; simpl.
  - rewrite H2. reflexivity.
  - rewrite Hc, H2. reflexivity.
Qed.

(** X11: [parse_fasta] reads the file in text mode, so a text without
    carriage returns parses the same when its lines end in ["\r\n"]
    instead of ["\n"]. *)
Theorem parse_fasta_crlf text :
  forallb (fun c => negb (Ascii.eqb c CR)) (list_ascii_of_string text) = true ->
  parse_fasta (to_crlf text) = parse_fasta text.
Proof.
  intros H. unfold parse_fasta. destruct (univ_newlines_no_cr text H) as [-> ->].
  reflexivity.
Qed.

Lemma build_msa_fold first targets :
  build_msa first targets = fold_left set_entry targets [("ref", first)].
Proof. reflexivity. Qed.

Lemma dict_set_hd {V} (d : dict V) k v k0 v0 :
  exists v', hd_error (dict_set k v ((k0, v0) :: d)) = Some (k0, v').
Proof.
  simpl. destruct (String.eqb_spec k k0) as [->|]; eexists; reflexivity.
Qed.

Lemma fold_set_entry_hd es k0 v0 d :
  exists v', hd_error (fold_left set_entry es ((k0, v0) :: d)) = Some (k0, v').
Proof.
  revert v0 d. induction es as [|[k v] es IH]; intros v0 d; simpl;
    [eexists; reflexivity|].
  destruct (String.eqb_spec k k0) as [->|]; apply IH.
Qed.

(** X12: the MSA stage 3 writes starts with the entry ["ref"], has one
    entry per name, and gives each target name the sequence of the last
    accepted file for it; ["ref"] holds the first reference sequence
    unless a target is itself named ["ref"], whose sequence then replaces
    it. *)
Theorem build_msa_spec first targets :
  (exists v, hd_error (build_msa first targets) = Some ("ref", v)) /\
  NoDup (map fst (build_msa first targets)) /\
  (forall k, dict_lookup (build_msa first targets) k =
     match last_value targets k with
     | Some t => Some t
     | None => if String.eqb k "ref" then Some first else None
     end).
Proof.
  rewrite build_msa_fold. split; [apply fold_set_entry_hd|]. split.
  - apply fold_set_entry_nodup. repeat constructor. intros [].
  - intros k. rewrite fold_set_entry_lookup. reflexivity.
Qed.

Lemma collect_cons read_file f refs targets :
  exists refs' targets',
    (forall rest, outcome (collect read_file (f :: rest) refs targets) =
                  outcome (collect read_file rest refs' targets')) /\
    (rejected read_file f = true -> refs' = refs /\ targets' = targets).
Proof.
  unfold rejected. cbn [collect].
  destruct (read_file f) as [text|].
  - destruct (existsb (String.eqb ref_key) (map fst (parse_fasta text))) eqn:Er;
      simpl negb; cbv iota.
    + destruct (filter (fun k => negb (String.eqb k ref_key)) (map fst (parse_fasta text)))
        as [|k [|k2 l]] eqn:Ef.
      * exists refs, targets. split; [|split; reflexivity].
        intros rest. rewrite !outcome_bind. reflexivity.
      * eexists _, _. split; [|simpl; discriminate].
        intros rest. rewrite !outcome_bind. reflexivity.
      * exists refs, targets. split; [|split; reflexivity].
        intros rest. rewrite !outcome_bind. reflexivity.
    + exists refs, targets. split; [|split; reflexivity].
      intros rest. rewrite !outcome_bind. reflexivity.
  - exists refs, targets. split; [|split; reflexivity].
    intros rest. rewrite !outcome_bind. reflexivity.
Qed.

Lemma collect_app read_file (pre : list string) refs targets :
  exists refs' targets',
    outcome (collect read_file pre refs targets) = Ok (refs', targets') /\
    forall post : list string, outcome (collect read_file (pre ++ post) refs targets) =
                 outcome (collect read_file post refs' targets').
Proof.
  revert refs targets.
  induction pre as [|f pre IH]; intros refs targets.
  - exists refs, targets. split; reflexivity.
  - destruct (collect_cons read_file f refs targets) as (r1 & t1 & Hstep & _).
    destruct (IH r1 t1) as (r2 & t2 & Ho & Hpost).
    exists r2, t2. split.
    + rewrite Hstep. exact Ho.
    + intros post. simpl app. rewrite Hstep. apply Hpost.
Qed.

Lemma collect_all_rejected read_file files refs targets :
  (forall f, In f files -> rejected read_file f = true) ->
  outcome (collect read_file files refs targets) = Ok (refs, targets).
Proof.
  revert refs targets. induction files as [|f files IH]; intros refs targets H;
    [reflexivity|].
  destruct (collect_cons read_file f refs targets) as (r1 & t1 & Hstep & Hrej).
  destruct (Hrej (H f (or_introl eq_refl))) as [-> ->].
  rewrite Hstep. apply IH. intros; apply H; right; assumption.
Qed.

Lemma main3_writes read_file files ok file content :
  In (EvWrite file content) (trace (main3 files read_file ok)) <->
  ok = true /\ file = "aligned.msa.fasta" /\
  exists first rest targets,
    outcome (collect read_file files [] []) = Ok (first :: rest, targets) /\
    content = msa_text (build_msa first targets).
Proof.
  destruct (collect_quiet read_file files [] []) as [[[refs targets] Ho] Hq].
  destruct refs as [|first rest].
  - split.
    + intros Hin. exfalso. destruct files as [|f fs].
      * simpl in Hin. intuition discriminate.
      * unfold main3 in Hin. msimpl. rewrite Ho in Hin. simpl in Hin.
        destruct Hin as [Hin|Hin]; [discriminate|].
        apply in_app_or in Hin as [Hin|[Hin|[]]]; [|discriminate].
        rewrite Forall_forall in Hq. destruct (Hq _ Hin) as [m [E|E]]; discriminate.
    + intros (_ & _ & first & rest & targets' & Ho' & _). congruence.
  - rewrite (main3_trace read_file files ok first rest targets Ho). split.
    + intros Hin. destruct Hin as [Hin|Hin]; [discriminate|].
      apply in_app_or in Hin as [Hin|Hin].
      { rewrite Forall_forall in Hq. destruct (Hq _ Hin) as [m [E|E]]; discriminate. }
      destruct Hin as [Hin|Hin];
        [destruct (forallb _ _); discriminate|].
      destruct ok; simpl in Hin; [|intuition discriminate].
      destruct Hin as [Hin|Hin]; [|intuition discriminate].
      injection Hin as <- <-. split; [reflexivity|split; [reflexivity|]].
      exists first, rest, targets. split; [exact Ho|reflexivity].
    + intros (-> & -> & f' & r' & t' & Ho' & ->). rewrite Ho in Ho'.
      injection Ho' as <- <- <-. simpl. right. apply in_or_app. right. right.
      left. reflexivity.
Qed.

(** X13: a FASTA file that stage 3 rejects (it cannot be read, has no
    ["ref_aligned"] entry, or does not have exactly one other entry)
    changes nothing in the MSA written: the run writes the same file as
    the run without it. *)
Theorem stage3_rejected_file_ignored read_file (pre : list string) f post ok file content :
  rejected read_file f = true ->
  (In (EvWrite file content) (trace (main3 (pre ++ f :: post) read_file ok)) <->
   In (EvWrite file content) (trace (main3 (pre ++ post) read_file ok))).
Proof.
  intros Hrej. rewrite !main3_writes.
  destruct (collect_app read_file pre [] []) as (r & t & _ & Hpost).
  rewrite !Hpost.
  destruct (collect_cons read_file f r t) as (r1 & t1 & Hstep & Hr).
  destruct (Hr Hrej) as [-> ->]. rewrite Hstep. reflexivity.
Qed.

(** X14: when every FASTA file is rejected (or there is none), stage 3
    writes no MSA file. *)
Theorem stage3_all_rejected_no_output read_file files ok file content :
  (forall f, In f files -> rejected read_file f = true) ->
  ~ In (EvWrite file content) (trace (main3 files read_file ok)).
Proof.
  intros H Hin. apply main3_writes in Hin as (_ & _ & first & rest & targets & Ho & _).
  rewrite (collect_all_rejected read_file files [] [] H) in Ho. discriminate.
Qed.

Lemma prefix_app_split p w x :
  String.prefix p (w ++ x) = true ->
  String.prefix p w = true \/ exists p2, p = w ++ p2 /\ String.prefix p2 x = true.
Proof.
  revert p. induction w as [|c w IH]; intros p H.
  - right. exists p. split; [reflexivity|exact H].
  - destruct p as [|a p]; [left; reflexivity|].
    simpl in H. destruct (ascii_dec a c) as [<-|]; [|discriminate].
    destruct (IH p H) as [Hl|(p2 & -> & Hp2)].
    + left. simpl. destruct (ascii_dec a a); [exact Hl|contradiction].
    + right. exists p2. split; [reflexivity|exact Hp2].
Qed.

Lemma replace_aligned_suffix w :
  contains "_aligned" w = false -> py_replace (w ++ "_aligned") "_aligned" "" = w.
Proof.
  unfold py_replace. induction w as [|c w IH]; intros H; [reflexivity|].
  change (contains "_aligned" (String c w)) with
    (String.prefix "_aligned" (String c w) || contains "_aligned" w) in H.
  apply orb_false_iff in H as [Hp Hc].
  cbn [replace_from append].
  assert (String.prefix "_aligned" (String c (w ++ "_aligned")) = false) as ->.
  { destruct (String.prefix "_aligned" (String c (w ++ "_aligned"))) eqn:E; [|reflexivity].
    exfalso.
    change (String.prefix "_aligned" (String c w)) with
      (if ascii_dec "_" c then String.prefix "aligned" w else false) in Hp.
    change (String.prefix "_aligned" (String c (w ++ "_aligned"))) with
      (if ascii_dec "_" c then String.prefix "aligned" (w ++ "_aligned") else false) in E.
    destruct (ascii_dec "_" c) as [<-|]; [|discriminate].
    apply prefix_app_split in E as [E|(p2 & Hs & Hp2)]; [congruence|].
    destruct p2 as [|d p2].
    - rewrite string_app_nil_r in Hs. subst w. discriminate.
    - cbn [String.prefix] in Hp2. destruct (ascii_dec d "_") as [->|]; [|discriminate].
      apply (f_equal list_ascii_of_string) in Hs.
      rewrite list_ascii_of_string_app in Hs.
      assert (In "_"%char (list_ascii_of_string "aligned")) as Hin
        by (rewrite Hs; apply in_or_app; right; left; reflexivity).
      simpl in Hin. intuition discriminate. }
  rewrite IH by exact Hc. reflexivity.
Qed.

Lemma lstrip_length s : String.length (lstrip s) <= String.length s.
Proof.
  induction s as [|c s IH]; simpl; [lia|]. destruct (py_isspace c); simpl; lia.
Qed.

Lemma lstrip_app_fixed s x :
  lstrip s = s -> lstrip x = x -> lstrip (s ++ x) = s ++ x.
Proof.
  destruct s as [|c s]; intros Hs Hx; [exact Hx|].
  simpl in Hs |- *. destruct (py_isspace c); [|reflexivity].
  exfalso. pose proof (lstrip_length s) as Hl. rewrite Hs in Hl. simpl in Hl. lia.
Qed.

Lemma alphabet_char c :
  existsb (Ascii.eqb c) (list_ascii_of_string amino_alphabet) = true ->
  is_line_break c = false /\ py_isspace c = false /\ Ascii.eqb c ">" = false.
Proof.
  intros H. apply existsb_exists in H as (x & Hin & Hx).
  apply Ascii.eqb_eq in Hx. subst x. simpl in Hin.
  repeat (destruct Hin as [<-|Hin]; [repeat split; reflexivity|]). destruct Hin.
Qed.

Lemma over_alphabet_in s c :
  over_alphabet s = true -> In c (list_ascii_of_string s) ->
  is_line_break c = false /\ py_isspace c = false /\ Ascii.eqb c ">" = false.
Proof.
  unfold over_alphabet. rewrite forallb_forall. intros H Hin.
  apply alphabet_char, H, Hin.
Qed.

Lemma over_alphabet_lstrip s : over_alphabet s = true -> lstrip s = s.
Proof.
  destruct s as [|c s]; intros H; [reflexivity|].
  destruct (over_alphabet_in (String c s) c H (or_introl eq_refl)) as (_ & Hc & _).
  simpl. rewrite Hc. reflexivity.
Qed.

Lemma over_alphabet_rev s : over_alphabet s = true -> over_alphabet (rev_string s) = true.
Proof.
  unfold over_alphabet, rev_string. rewrite list_ascii_of_string_of_list_ascii.
  rewrite !forallb_forall. intros H c Hc. apply H, in_rev, Hc.
Qed.

Lemma over_alphabet_entry k v :
  no_line_break k = true -> py_strip k = k -> over_alphabet v = true ->
  entry_ok (k, v).
Proof.
  intros Hk Hks Hv. simpl. split; [exact Hk|split; [exact Hks|]].
  split; [|split].
  - unfold no_line_break. apply forallb_forall. intros c Hc.
    destruct (over_alphabet_in v c Hv Hc) as (-> & _). reflexivity.
  - unfold py_strip. rewrite (over_alphabet_lstrip v Hv).
    rewrite (over_alphabet_lstrip _ (over_alphabet_rev v Hv)).
    apply rev_string_involutive.
  - destruct v as [|c v]; [reflexivity|].
    destruct (over_alphabet_in (String c v) c Hv (or_introl eq_refl)) as (_ & _ & Hc).
    exact Hc.
Qed.

Lemma target_key_strip target :
  lstrip target = target -> py_strip (target ++ "_aligned") = target ++ "_aligned".
Proof.
  intros H. unfold py_strip. rewrite lstrip_app_fixed by (exact H || reflexivity).
  assert (lstrip (rev_string (target ++ "_aligned")) = rev_string (target ++ "_aligned")) as ->.
  { rewrite rev_string_app. change (rev_string "_aligned") with "dengila_"%string.
    reflexivity. }
  apply rev_string_involutive.
Qed.

Lemma no_line_break_app a b :
  no_line_break (a ++ b) = no_line_break a && no_line_break b.
Proof. unfold no_line_break. rewrite list_ascii_of_string_app. apply forallb_app. Qed.

Lemma string_app_inv_r a b x : a ++ x = b ++ x -> a = b.
Proof.
  intros H. apply (f_equal list_ascii_of_string) in H.
  rewrite !list_ascii_of_string_app in H. apply app_inv_tail in H.
  rewrite <- (string_of_list_ascii_of_string a), <- (string_of_list_ascii_of_string b).
  rewrite H. reflexivity.
Qed.

Lemma fasta_output_msa_text target r t :
  fasta_output target r t =
  msa_text [("ref_aligned", r); (target ++ "_aligned", t)].
Proof.
  unfold fasta_output. simpl msa_text.
  rewrite !string_app_assoc. reflexivity.
Qed.

Lemma parse_fasta_output target r t :
  target <> "ref" -> no_line_break target = true -> lstrip target = target ->
  over_alphabet r = true -> over_alphabet t = true ->
  parse_fasta (fasta_output target r t) =
  [("ref_aligned", r); (target ++ "_aligned", t)].
Proof.
  intros Hne Hnl Hls Hr Ht.
  assert (Hes : Forall entry_ok [("ref_aligned", r); (target ++ "_aligned", t)]).
  { constructor; [apply over_alphabet_entry; [reflexivity|reflexivity|exact Hr]|].
    constructor; [|constructor]. apply over_alphabet_entry; [|apply target_key_strip, Hls|exact Ht].
    rewrite no_line_break_app, Hnl. reflexivity. }
  unfold parse_fasta. rewrite fasta_output_msa_text, msa_text_read, msa_text_lines by exact Hes.
  rewrite parse_lines_entries by exact Hes. apply fold_set_entry_distinct.
  simpl. constructor; [|constructor; [intros []|constructor]].
  intros [Heq|[]]. apply Hne. apply (string_app_inv_r _ _ "_aligned"), Heq.
Qed.

(** X15: a file in the format stage 2 writes is accepted by stage 3: its
    reference sequence is appended to the references and its target
    sequence is stored under the target's name.  The name must survive
    the header round trip: it is not ["ref"], has no line break, no leading
    whitespace and no ["_aligned"] in it; the sequences are over the
    residue alphabet, as stage 2 produces them. *)
Theorem stage3_accepts_stage2_file read_file f rest refs targets target r t :
  read_file f = Some (fasta_output target r t) ->
  target <> "ref" -> no_line_break target = true -> lstrip target = target ->
  contains "_aligned" target = false ->
  over_alphabet r = true -> over_alphabet t = true ->
  outcome (collect read_file (f :: rest) refs targets) =
  outcome (collect read_file rest (refs ++ [r]) (dict_set target t targets)).
Proof.
  intros Hf Hne Hnl Hls Hc Hr Ht.
  assert (Hk : String.eqb (target ++ "_aligned") "ref_aligned" = false).
  { apply String.eqb_neq. intros Heq. apply Hne.
    apply (string_app_inv_r _ _ "_aligned"), Heq. }
  cbn [collect]. rewrite Hf, parse_fasta_output by assumption.
  rewrite outcome_bind. unfold ref_key. simpl. rewrite Hk. simpl. rewrite Hk.
  rewrite replace_aligned_suffix by exact Hc. rewrite String.eqb_refl. reflexivity.
Qed.

Lemma lstrip_idem s : lstrip (lstrip s) = lstrip s.
Proof.
  induction s as [|c s IH]; [reflexivity|]. simpl.
  destruct (py_isspace c) eqn:E; [exact IH|]. simpl. rewrite E. reflexivity.
Qed.

Lemma lstrip_suffix s : exists u, s = u ++ lstrip s.
Proof.
  induction s as [|c s (u & Hu)]; [exists ""; reflexivity|]. simpl.
  destruct (py_isspace c); [exists (String c u); simpl; rewrite <- Hu; reflexivity|].
  exists ""; reflexivity.
Qed.

Lemma lstrip_fixed_prefix w v : lstrip (w ++ v) = w ++ v -> lstrip w = w.
Proof.
  destruct w as [|c w]; intros H; [reflexivity|]. simpl in H |- *.
  destruct (py_isspace c); [|reflexivity]. exfalso.
  pose proof (lstrip_length (w ++ v)) as Hl. rewrite H in Hl. simpl in Hl. lia.
Qed.

Lemma rstrip_keeps_lstrip x :
  lstrip x = x -> lstrip (rev_string (lstrip (rev_string x))) = rev_string (lstrip (rev_string x)).
Proof.
  intros Hx. destruct (lstrip_suffix (rev_string x)) as (u & Hu).
  apply (lstrip_fixed_prefix _ (rev_string u)).
  rewrite <- rev_string_app, <- Hu, rev_string_involutive. exact Hx.
Qed.

Lemma py_strip_idem s : py_strip (py_strip s) = py_strip s.
Proof.
  assert (H : lstrip (py_strip s) = py_strip s)
    by (apply rstrip_keeps_lstrip, lstrip_idem).
  unfold py_strip at 1. rewrite H.
  unfold py_strip. rewrite rev_string_involutive, lstrip_idem. reflexivity.
Qed.

Lemma dict_set_keys_in {V} (d : dict V) k v x :
  In x (map fst (dict_set k v d)) -> x = k \/ In x (map fst d).
Proof.
  rewrite dict_set_keys. intros H. destruct (existsb _ _); [right; exact H|].
  apply in_app_or in H as [H|[<-|[]]]; [right; exact H|left; reflexivity].
Qed.

Lemma parse_lines_keys_stripped lines header seq_lines d :
  (forall h, header = Some h -> py_strip h = h) ->
  (forall k, In k (map fst d) -> py_strip k = k) ->
  forall k, In k (map fst (parse_lines lines header seq_lines d)) -> py_strip k = k.
Proof.
  revert header seq_lines d.
  induction lines as [|line lines IH]; intros header seq_lines d Hh Hd; simpl.
  - destruct header as [h|]; [|exact Hd].
    intros k Hk. apply dict_set_keys_in in Hk as [->|Hk]; [apply Hh; reflexivity|apply Hd, Hk].
  - destruct (starts_with_gt line); apply IH.
    + intros h Heq. injection Heq as <-. apply py_strip_idem.
    + destruct header as [h|]; [|exact Hd].
      intros k Hk. apply dict_set_keys_in in Hk as [->|Hk]; [apply Hh; reflexivity|apply Hd, Hk].
    + exact Hh.
    + exact Hd.
Qed.

(** X16: every header [parse_fasta] returns is already stripped of
    leading and trailing whitespace. *)
Theorem parse_fasta_headers_stripped text k :
  In k (map fst (parse_fasta text)) -> py_strip k = k.
Proof.
  apply parse_lines_keys_stripped; [discriminate|intros ? []].
Qed.

(** ** Concrete instances of the further properties *)

Lemma stage1_load_failure_aborts_witness :
  let load_ok := fun p => negb (String.eqb p "/w/pdbs/a.pdb") in
  other_pdb_files pdb_listing <> [] /\
  outcome (main1 "/w/pdbs" true pdb_listing load_ok (fun _ => true) true) = Exc CmdException /\
  ~ In (EvSave "alignment.pse")
      (trace (main1 "/w/pdbs" true pdb_listing load_ok (fun _ => true) true)).
Proof.
  intros load_ok.
  assert (Hne : other_pdb_files pdb_listing <> []) by (vm_compute; discriminate).
  assert (Ha : In "a.pdb" (other_pdb_files pdb_listing)) by pick_in.
  destruct (stage1_load_failure_aborts "/w/pdbs" pdb_listing load_ok (fun _ => true) true Hne
              (or_intror (ex_intro _ "a.pdb" (conj Ha eq_refl))))
    as (Ho & Hs & _).
  split; [exact Hne|split; [exact Ho|exact Hs]].
Defined.

Lemma extract_empty_selection_witness :
  lookup_object session_far_ca "far" = Some far_ca_atoms /\
  outcome (extract_aligned_sequence within_2A always_true always_true
             session_far_ca "far") = Ok None.
Proof.
  split; [reflexivity|].
  apply (extract_empty_selection within_2A always_true always_true session_far_ca "far"
           ref_mixed_atoms far_ca_atoms); [reflexivity|reflexivity|].
  first [left; vm_compute; reflexivity | right; vm_compute; reflexivity].
Defined.

Lemma py_sorted_sorted_witness :
  py_sorted sort_key (rev ref_atoms) = Some ref_atoms /\
  Permutation (rev ref_atoms) ref_atoms /\
  Sorted (fun a b => key_lt (sort_key b) (sort_key a) = Some false) ref_atoms.
Proof.
  assert (H : py_sorted sort_key (rev ref_atoms) = Some ref_atoms) by (vm_compute; reflexivity).
  split; [exact H|exact (py_sorted_sorted (rev ref_atoms) ref_atoms H)].
Defined.

Lemma py_sorted_total_witness : exists s, py_sorted sort_key t1_atoms = Some s.
Proof.
  apply py_sorted_total. intros a b Ha Hb _.
  destruct Ha as [<-|[<-|[]]]; destruct Hb as [<-|[<-|[]]];
    vm_compute; split; intros; discriminate.
Defined.

Lemma stage2_output_alphabet_witness :
  In (EvWrite (output_filename "t1") (fasta_output "t1" "AG" "SV"))
    (trace (main2 within_2A always_true always_true always_true (Some session_ok))) /\
  exists target r t, fasta_output "t1" "AG" "SV" = fasta_output target r t /\
    over_alphabet r = true /\ over_alphabet t = true.
Proof.
  assert (H : In (EvWrite (output_filename "t1") (fasta_output "t1" "AG" "SV"))
    (trace (main2 within_2A always_true always_true always_true (Some session_ok))))
    by pick_in.
  split; [exact H|exact (stage2_output_alphabet _ _ _ _ _ _ _ H)].
Defined.

Lemma stage2_no_targets_witness :
  outcome (main2 within_2A always_true always_true always_true
             (Some [("ref", ref_atoms); ("session", t1_atoms)])) = Ok tt.
Proof.
  apply (stage2_no_targets within_2A always_true always_true always_true).
  intros objs E. injection E as <-. reflexivity.
Defined.

Lemma parse_fasta_no_header_witness :
  parse_fasta ("ACGT" ++ nl ++ "GGA" ++ nl) = [].
Proof. apply parse_fasta_no_header. vm_compute. reflexivity. Defined.

Lemma parse_fasta_crlf_witness :
  parse_fasta (to_crlf (fasta_output "t1" "AG" "SV")) =
  parse_fasta (fasta_output "t1" "AG" "SV").
Proof. apply parse_fasta_crlf. vm_compute. reflexivity. Defined.

Lemma stage3_rejected_file_ignored_witness :
  rejected read_fixture "notes.fasta" = true /\
  (In (EvWrite "aligned.msa.fasta" (msa_text [("ref", "AG"); ("a", "SV"); ("b", "SW")]))
     (trace (main3 ["a_seq_align.fasta"; "notes.fasta"; "b_seq_align.fasta"] read_fixture true)) <->
   In (EvWrite "aligned.msa.fasta" (msa_text [("ref", "AG"); ("a", "SV"); ("b", "SW")]))
     (trace (main3 ["a_seq_align.fasta"; "b_seq_align.fasta"] read_fixture true))).
Proof.
  split; [reflexivity|].
  exact (stage3_rejected_file_ignored read_fixture ["a_seq_align.fasta"] "notes.fasta"
           ["b_seq_align.fasta"] true _ _ eq_refl).
Defined.

Lemma stage3_all_rejected_no_output_witness :
  ~ In (EvWrite "aligned.msa.fasta" (msa_text [("ref", "")]))
      (trace (main3 ["x_seq_align.fasta"] (fun _ => Some (msa_text [("x", "AC")])) true)).
Proof.
  apply stage3_all_rejected_no_output. intros f [<-|[]]. reflexivity.
Defined.

Lemma stage3_accepts_stage2_file_witness :
  outcome (collect read_fixture fixture_files [] []) =
  outcome (collect read_fixture ["b_seq_align.fasta"] ["AG"] [("a", "SV")]).
Proof.
  exact (stage3_accepts_stage2_file read_fixture "a_seq_align.fasta" ["b_seq_align.fasta"]
           [] [] "a" "AG" "SV" eq_refl ltac:(discriminate) eq_refl eq_refl eq_refl
           eq_refl eq_refl).
Defined.

Lemma parse_fasta_headers_stripped_witness :
  In "t1"%string (map fst (parse_fasta (">  t1 " ++ nl ++ "AG" ++ nl))) /\
  py_strip "t1" = "t1".
Proof.
  assert (H : In "t1"%string (map fst (parse_fasta (">  t1 " ++ nl ++ "AG" ++ nl))))
    by pick_in.
  split; [exact H|exact (parse_fasta_headers_stripped _ _ H)].
Defined.
